(** * The text backend of errbot: identities, rooms and the console session

    A shallow embedding of [errbot/backends/text.py].  Python objects that
    are mutated after construction (rooms) live in a store and are referred
    to by location, so that aliasing is visible; immutable objects (strings,
    persons, occupants) are plain values.  Methods that touch the store or
    the backend's attributes run in a state-and-exception monad; console
    input and the callbacks of the host framework are recorded as a trace
    of events. *)

From stdpp Require Import base option list strings.
From Stdlib Require Import Ascii ZArith.

(** ** Values *)

(** A reference to a [TextRoom] object in the store. *)
Abbreviation loc := nat (only parsing).

(** [TextPerson]: the four attributes set by [__init__]. *)
Record TextPerson := mkTextPerson {
  _person : string;
  _client : option string;
  _nick : option string;
  _fullname : option string
}.

(** The Python values the backend handles.  A [TextOccupant] is a
    [TextPerson] subclass whose [_person] attribute receives whatever the
    caller passes ('somebody', a [TextPerson], [bot.bot_identifier],
    [self.user]); its [_room] is a room reference. *)
Inductive pyval :=
| VStr (s : string)
| VPerson (p : TextPerson)
| VOccupant (person : pyval) (room : loc)
| VRoom (room : loc).

(** [TextRoom]: the attributes set by [__init__], without the back
    pointer [_bot] (there is one backend, the monad's state). *)
Record TextRoom := mkTextRoom {
  _topic : string;
  _joined : bool;
  name : string;
  _occupants : list pyval
}.

(** [TextBackend]: the attributes the session reads and writes, the two
    configuration values it consults ([BOT_ADMINS[0]], which [__init__]
    has already evaluated, and the demo flag), and the object store. *)
Record TextBackend := mkTextBackend {
  BOT_ADMINS_0 : string;
  bot_identifier : pyval;
  _inroom : bool;
  _rooms : list loc;
  user : pyval;
  demo_mode : bool;
  store : list TextRoom
}.

(** Exceptions.  [Exception] stands for any other exception a callback of
    the host framework raises.  [Dangling] is not a Python exception: it is
    what the model answers when a reference points outside the store, which
    no well-formed state allows. *)
Inductive exn :=
| ValueError (msg : string)
| IndexError
| AttributeError
| TypeError
| EOFError
| KeyboardInterrupt
| Exception (msg : string)
| Dangling.

Inductive outcome (A : Type) :=
| Ok (a : A)
| Raise (e : exn).
Arguments Ok {A} a.
Arguments Raise {A} e.

(** ** The monad of methods: backend state and exceptions.  A raised
    exception keeps the state reached so far (Python does not roll back). *)
Definition M (A : Type) : Type := TextBackend → outcome A * TextBackend.

#[global] Instance M_ret : MRet M := λ A a st, (Ok a, st).
#[global] Instance M_bind : MBind M := λ A B f m st,
  match m st with
  | (Ok a, st') => f a st'
  | (Raise e, st') => (Raise e, st')
  end.

Definition raise {A} (e : exn) : M A := λ st, (Raise e, st).
Definition gets {A} (f : TextBackend → A) : M A := λ st, (Ok (f st), st).
Definition modify (f : TextBackend → TextBackend) : M unit := λ st, (Ok tt, f st).
Definition lift_outcome {A} (o : outcome A) : M A := λ st, (o, st).

Definition set_store (h : list TextRoom) (st : TextBackend) : TextBackend :=
  mkTextBackend (BOT_ADMINS_0 st) (bot_identifier st) (_inroom st) (_rooms st)
                (user st) (demo_mode st) h.
Definition set_rooms (rs : list loc) (st : TextBackend) : TextBackend :=
  mkTextBackend (BOT_ADMINS_0 st) (bot_identifier st) (_inroom st) rs
                (user st) (demo_mode st) (store st).
Definition set_inroom (b : bool) (st : TextBackend) : TextBackend :=
  mkTextBackend (BOT_ADMINS_0 st) (bot_identifier st) b (_rooms st)
                (user st) (demo_mode st) (store st).
Definition set_user (u : pyval) (st : TextBackend) : TextBackend :=
  mkTextBackend (BOT_ADMINS_0 st) (bot_identifier st) (_inroom st) (_rooms st)
                u (demo_mode st) (store st).

(** Reading and updating a room object through a reference. *)
Definition deref (h : list TextRoom) (r : loc) : outcome TextRoom :=
  match h !! r with
  | Some o => Ok o
  | None => Raise Dangling
  end.

Definition get_room (r : loc) : M TextRoom := λ st, (deref (store st) r, st).

Definition update_room (r : loc) (f : TextRoom → TextRoom) : M unit :=
  o ← get_room r; modify (λ st, set_store (<[r := f o]> (store st)) st).

(** ** Strings *)

(** [s.startswith(c)] for a one-character [c]. *)
Definition startswith (c : ascii) (s : string) : bool :=
  match s with
  | String c' _ => Ascii.eqb c' c
  | EmptyString => false
  end.

(** [s[1:]]: the empty string stays empty. *)
Definition slice1 (s : string) : string :=
  match s with
  | String _ rest => rest
  | EmptyString => EmptyString
  end.

(** [c in s] for a one-character [c]. *)
Fixpoint contains (c : ascii) (s : string) : bool :=
  match s with
  | EmptyString => false
  | String c' rest => Ascii.eqb c' c || contains c rest
  end.

(** [s.split(c)]: never empty, one more part than there are separators. *)
Fixpoint split (c : ascii) (s : string) : list string :=
  match s with
  | EmptyString => [EmptyString]
  | String c' rest =>
      match split c rest with
      | [] => if Ascii.eqb c' c then [EmptyString; EmptyString] else [String c' EmptyString]
      | w :: ws => if Ascii.eqb c' c then EmptyString :: w :: ws else String c' w :: ws
      end
  end.

(** [needle in hay] on strings. *)
Definition substring_of (needle hay : string) : bool :=
  match String.index 0 needle hay with
  | Some _ => true
  | None => false
  end.

(** ** [TextPerson] *)

(** [a == b] where one side is a [str] and the other any value: [str.__eq__]
    answers for two strings and otherwise returns NotImplemented, so the
    other operand's [__eq__] decides: [TextPerson.__eq__] sees a
    non-[Person] and answers [False]; [TextOccupant.__eq__] and
    [TextRoom.__eq__] read [.person] and [.name] of the string and raise. *)
Definition str_eq (s : string) (v : pyval) : outcome bool :=
  match v with
  | VStr t => Ok (String.eqb s t)
  | VPerson _ => Ok false
  | VOccupant _ _ => Raise AttributeError
  | VRoom _ => Raise AttributeError
  end.

Module TextPerson.

Definition __init__ (person : string) : TextPerson :=
  mkTextPerson person None None None.

Definition person (self : TextPerson) : string := _person self.
Definition client (self : TextPerson) : option string := _client self.
Definition nick (self : TextPerson) : option string := _nick self.
Definition fullname (self : TextPerson) : option string := _fullname self.
Definition aclattr (self : TextPerson) : string := person self.

Definition __str__ (self : TextPerson) : string := "@" +:+ _person self.

(** [isinstance(other, Person)] holds for persons and occupants
    ([TextOccupant] derives from [TextPerson]); strings and rooms are not
    persons. *)
Definition __eq__ (self : TextPerson) (other : pyval) : outcome bool :=
  match other with
  | VStr _ => Ok false
  | VRoom _ => Ok false
  | VPerson q => Ok (String.eqb (person self) (person q))
  | VOccupant op _ => str_eq (person self) op
  end.

End TextPerson.

(** ** [TextRoom] *)

Module TextRoom.

(** [TextRoom(name, bot)]: a new object in the store, whose three
    occupants point back at it. *)
Definition fresh (st : TextBackend) (self : loc) (name : string) : TextRoom :=
  mkTextRoom "" false name
    [ VOccupant (VStr "somebody") self;
      VOccupant (VPerson (TextPerson.__init__ (BOT_ADMINS_0 st))) self;
      VOccupant (bot_identifier st) self ].

Definition __init__ (name : string) : M loc := λ st,
  let self := length (store st) in
  (Ok self, set_store (store st ++ [fresh st self name]) st).

Definition set_joined (b : bool) (o : TextRoom) : TextRoom :=
  mkTextRoom (_topic o) b (name o) (_occupants o).
Definition set_topic (t : string) (o : TextRoom) : TextRoom :=
  mkTextRoom t (_joined o) (name o) (_occupants o).

Definition join (self : loc) : M unit := update_room self (set_joined true).
Definition leave (self : loc) : M unit := update_room self (set_joined false).
Definition create (self : loc) : M unit := update_room self (set_joined true).
Definition destroy (self : loc) : M unit := update_room self (set_joined false).

Definition exists_ (self : loc) : M bool := mret true.
Definition joined (self : loc) : M bool := o ← get_room self; mret (_joined o).
Definition topic (self : loc) : M string := o ← get_room self; mret (_topic o).
Definition topic_setter (self : loc) (topic : string) : M unit :=
  update_room self (set_topic topic).
Definition occupants (self : loc) : M (list pyval) :=
  o ← get_room self; mret (_occupants o).
Definition invite (self : loc) (args : list pyval) : M unit := mret tt.

Definition __str__ (h : list TextRoom) (self : loc) : outcome string :=
  match deref h self with
  | Ok o => Ok ("#" +:+ name o)
  | Raise e => Raise e
  end.

(** [self.name == other.name]: only a room has a [name]. *)
Definition __eq__ (h : list TextRoom) (self : loc) (other : pyval) : outcome bool :=
  match other with
  | VRoom r =>
      match deref h self, deref h r with
      | Ok a, Ok b => Ok (String.eqb (name a) (name b))
      | Raise e, _ => Raise e
      | _, Raise e => Raise e
      end
  | _ => Raise AttributeError
  end.

End TextRoom.

(** ** [TextOccupant] *)

(** [v.person]: the property of [TextPerson], inherited by occupants;
    strings and rooms have no such attribute. *)
Definition attr_person (v : pyval) : outcome pyval :=
  match v with
  | VPerson p => Ok (VStr (TextPerson.person p))
  | VOccupant op _ => Ok op
  | VStr _ => Raise AttributeError
  | VRoom _ => Raise AttributeError
  end.

(** [v.room]: only occupants have one. *)
Definition attr_room (v : pyval) : outcome loc :=
  match v with
  | VOccupant _ r => Ok r
  | _ => Raise AttributeError
  end.

Module TextOccupant.

Definition __init__ (person : pyval) (room : loc) : pyval := VOccupant person room.

(** [self.person == other.person and self.room == other.room], given the
    [==] of values as [eq].  The attributes of [other] are looked up when
    their conjunct is evaluated. *)
Definition __eq__ (eq : pyval → pyval → outcome bool) (h : list TextRoom)
    (self_person : pyval) (self_room : loc) (other : pyval) : outcome bool :=
  match attr_person other with
  | Raise e => Raise e
  | Ok other_person =>
      match eq self_person other_person with
      | Raise e => Raise e
      | Ok false => Ok false
      | Ok true =>
          match attr_room other with
          | Raise e => Raise e
          | Ok other_room => TextRoom.__eq__ h self_room (VRoom other_room)
          end
      end
  end.

End TextOccupant.

(** ** [==] and [str()] on values *)

(** [a == b].  The left operand's [__eq__] runs, except that for a person
    on the left and an occupant on the right the subclass's [__eq__] has
    priority: [TextOccupant.__eq__] compares the occupant's [person] with
    the person's identifier string and then fails on the person's missing
    [room]. *)
Fixpoint py_eq (h : list TextRoom) (a b : pyval) : outcome bool :=
  match a with
  | VStr s => str_eq s b
  | VPerson p =>
      match b with
      | VOccupant op r =>
          match str_eq (TextPerson.person p) op with
          | Ok true => Raise AttributeError
          | Ok false => Ok false
          | Raise e => Raise e
          end
      | _ => TextPerson.__eq__ p b
      end
  | VOccupant op r => TextOccupant.__eq__ (py_eq h) h op r b
  | VRoom r => TextRoom.__eq__ h r b
  end.

(** [str(v)].  An occupant prints ['#%s/%s' % (self._room.name,
    self._person.person)]: its [_person] must itself have a [person]. *)
Fixpoint py_str (h : list TextRoom) (v : pyval) : outcome string :=
  match v with
  | VStr s => Ok s
  | VPerson p => Ok (TextPerson.__str__ p)
  | VRoom r => TextRoom.__str__ h r
  | VOccupant op r =>
      match deref h r with
      | Raise e => Raise e
      | Ok o =>
          match op with
          | VStr _ => Raise AttributeError
          | VRoom _ => Raise AttributeError
          | VPerson q => Ok ("#" +:+ name o +:+ "/" +:+ TextPerson.person q)
          | VOccupant op' _ =>
              match py_str h op' with
              | Ok s => Ok ("#" +:+ name o +:+ "/" +:+ s)
              | Raise e => Raise e
              end
          end
      end
  end.

(** [el in l] on a list of rooms: the first element equal to [el] wins. *)
Fixpoint list_contains (h : list TextRoom) (el : loc) (l : list loc) : outcome bool :=
  match l with
  | [] => Ok false
  | item :: rest =>
      if bool_decide (item = el) then Ok true
      else match TextRoom.__eq__ h item (VRoom el) with
           | Ok true => Ok true
           | Ok false => list_contains h el rest
           | Raise e => Raise e
           end
  end.

(** ** [TextBackend]: identity resolution *)

Definition InvalidRoomName : exn := ValueError "A Room name must start by #.".
Definition InvalidIdentifier : exn :=
  ValueError "An identifier for the Text backend needs to start by # for a room or @ for a person.".

Definition query_room (room : string) : M loc :=
  match room with
  | EmptyString => raise IndexError
  | String c rest =>
      if negb (Ascii.eqb c "#") then raise InvalidRoomName
      else
        text_room ← TextRoom.__init__ rest;
        rooms ← gets _rooms;
        h ← gets store;
        present ← lift_outcome (list_contains h text_room rooms);
        _ ← (if negb present then modify (λ st, set_rooms (_rooms st ++ [text_room]) st)
             else mret tt);
        mret text_room
  end.

Definition rooms : M (list loc) := gets _rooms.

(** [room, person = rem.split('/')] needs exactly two parts; the token
    contains a slash, so there are at least two. *)
Definition build_identifier (text_representation : string) : M pyval :=
  if startswith "#" text_representation then
    let rem := slice1 text_representation in
    if contains "/" text_representation then
      match split "/" rem with
      | [room; person] =>
          let p := TextPerson.__init__ person in
          r ← TextRoom.__init__ room;
          mret (TextOccupant.__init__ (VPerson p) r)
      | [_] => raise (ValueError "not enough values to unpack (expected 2, got 1)")
      | _ => raise (ValueError "too many values to unpack (expected 2)")
      end
    else r ← query_room rem; mret (VRoom r)
  else if negb (startswith "@" text_representation) then raise InvalidIdentifier
  else mret (VPerson (TextPerson.__init__ (slice1 text_representation))).

Definition mode : string := "text".

(** ** Hashing *)

Section Hashing.

(** Python's hash of a string. *)
Variable str_hash : string → Z.

Definition TextPerson_hash (self : TextPerson) : Z := str_hash (TextPerson.person self).

Definition TextRoom_hash (h : list TextRoom) (self : loc) : outcome Z :=
  match deref h self with
  | Ok o => Ok (str_hash (name o))
  | Raise e => Raise e
  end.

(** [v.__hash__()]; for an occupant,
    [self.person.__hash__() + self.room.__hash__()]. *)
Fixpoint py_hash (h : list TextRoom) (v : pyval) : outcome Z :=
  match v with
  | VStr s => Ok (str_hash s)
  | VPerson p => Ok (TextPerson_hash p)
  | VRoom r => TextRoom_hash h r
  | VOccupant op r =>
      match py_hash h op, TextRoom_hash h r with
      | Ok a, Ok b => Ok (a + b)%Z
      | Raise e, _ => Raise e
      | _, Raise e => Raise e
      end
  end.

End Hashing.

(** ** [TextPlugin]: the commands the session adds to the bot *)

Module TextPlugin.

Definition inroom : M string :=
  _ ← modify (set_inroom true);
  rs ← gets _rooms;
  match rs with
  | [] => raise IndexError
  | r0 :: _ =>
      h ← gets store;
      s ← lift_outcome (TextRoom.__str__ h r0);
      mret ("Joined Room " +:+ s +:+ ".")
  end.

Definition inperson : M string :=
  _ ← modify (set_inroom false);
  mret "Now in one-on-one with the bot.".

Definition asuser (args : string) : M string :=
  _ ← (match args with
       | String c _ =>
           let usr := if negb (Ascii.eqb c "@") then "@" +:+ args else args in
           u ← build_identifier usr; modify (set_user u)
       | EmptyString =>
           u ← build_identifier "@luser"; modify (set_user u)
       end);
  u ← gets user;
  h ← gets store;
  s ← lift_outcome (py_str h u);
  mret ("You are now: " +:+ s).

Definition asadmin : M string :=
  admin ← gets BOT_ADMINS_0;
  u ← build_identifier admin;
  _ ← modify (set_user u);
  u ← gets user;
  h ← gets store;
  s ← lift_outcome (py_str h u);
  mret ("You are now an admin: " +:+ s).

End TextPlugin.

(** ** The console session *)

Record Message := mkMessage {
  body : string;
  frm : pyval;
  to : pyval
}.

Inductive presence_status := ONLINE | OFFLINE.

(** What the session does to the outside: calls into the host framework
    and console reads, in the order they happen. *)
Inductive event :=
| inject_commands_from (plugin : string)
| remove_console_logging
| connect_callback
| callback_presence (identifier : pyval) (status : presence_status)
| input (prompt : string)
| callback_message (msg : Message)
| callback_mention (msg : Message) (mentioned : list pyval)
| sleep
| disconnect_callback
| shutdown
| send (identifier : pyval) (text : string) (in_reply_to : option Message).

(** Methods that also emit events. *)
Definition IO (A : Type) : Type := TextBackend → outcome A * TextBackend * list event.

#[global] Instance IO_ret : MRet IO := λ A a st, (Ok a, st, []).
#[global] Instance IO_bind : MBind IO := λ A B f m st,
  match m st with
  | (Ok a, st', tr) => let '(o, st'', tr') := f a st' in (o, st'', tr ++ tr')
  | (Raise e, st', tr) => (Raise e, st', tr)
  end.

Definition emit (e : event) : IO unit := λ st, (Ok tt, st, [e]).
Definition liftM {A} (m : M A) : IO A := λ st, let '(o, st') := m st in (o, st', []).

(** [try: body except EOFError: pass except KeyboardInterrupt: pass]. *)
Definition try_pass (body : IO unit) : IO unit := λ st,
  match body st with
  | (Raise EOFError, st', tr) => (Ok tt, st', tr)
  | (Raise KeyboardInterrupt, st', tr) => (Ok tt, st', tr)
  | r => r
  end.

(** [try: body finally: cleanup]: the cleanup runs after the body however
    the body ends; the body's outcome stands unless the cleanup raises. *)
Definition try_finally {A} (body : IO A) (cleanup : IO unit) : IO A := λ st,
  let '(o, st', tr) := body st in
  match cleanup st' with
  | (Ok _, st'', tr') => (o, st'', tr ++ tr')
  | (Raise e, st'', tr') => (Raise e, st'', tr ++ tr')
  end.

(** One turn of the console: a line; an interrupt while [input] waits; or
    a line followed by an interrupt during the pause after it has been
    handled.  The end of the list is the end of input.  (An interrupt
    while a handler runs is that handler raising [KeyboardInterrupt].) *)
Inductive console :=
| Line (entry : string)
| Interrupt
| Line_then_interrupt (entry : string).

(** *** Characters

    A Python [str] is a sequence of code points; the strings of this file
    hold its UTF-8 encoding, one [ascii] per byte (as the arrow of the
    prompt below).  Prefix tests against [#] and [@], [s[1:]] after such a
    prefix, [split('/')] and [in] give the same answers on the encoding
    as on the code points.  The mention pattern is the one place where
    the code looks at characters: [\w] in a [str] pattern is
    Unicode-aware. *)

(** What a continuation byte of UTF-8 carries, its low six bits. *)
Definition continuation (b : ascii) : option N :=
  let n := N_of_ascii b in
  if ((128 <=? n) && (n <? 192))%N then Some (n - 128)%N else None.

Definition is_continuation (b : ascii) : bool :=
  match continuation b with
  | Some _ => true
  | None => false
  end.

(** The characters of a text, each as the bytes that encode it: a byte
    that is no continuation byte, with the continuation bytes that follow
    it. *)
Fixpoint chars (s : string) : list string :=
  match s with
  | EmptyString => []
  | String b rest =>
      match chars rest with
      | String b' ch :: chs =>
          if is_continuation b' then String b (String b' ch) :: chs
          else String b EmptyString :: String b' ch :: chs
      | chs => String b EmptyString :: chs
      end
  end.

(** The code point of a character: one byte below 128, or a lead byte
    with one, two or three continuation bytes, in shortest form and no
    surrogate.  Bytes that encode no code point are no character of a
    [str]; they get [None]. *)
Definition code_point (ch : string) : option N :=
  match ch with
  | EmptyString => None
  | String b0 tail =>
      let n0 := N_of_ascii b0 in
      match tail with
      | EmptyString => if (n0 <? 128)%N then Some n0 else None
      | String b1 EmptyString =>
          if ((194 <=? n0) && (n0 <? 224))%N then
            c1 ← continuation b1;
            Some ((n0 - 192) * 64 + c1)%N
          else None
      | String b1 (String b2 EmptyString) =>
          if ((224 <=? n0) && (n0 <? 240))%N then
            c1 ← continuation b1;
            c2 ← continuation b2;
            let cp := ((n0 - 224) * 4096 + c1 * 64 + c2)%N in
            if ((2048 <=? cp) && negb ((55296 <=? cp) && (cp <? 57344)))%N
            then Some cp else None
          else None
      | String b1 (String b2 (String b3 EmptyString)) =>
          if ((240 <=? n0) && (n0 <? 245))%N then
            c1 ← continuation b1;
            c2 ← continuation b2;
            c3 ← continuation b3;
            let cp := ((n0 - 240) * 262144 + c1 * 4096 + c2 * 64 + c3)%N in
            if ((65536 <=? cp) && (cp <? 1114112))%N then Some cp else None
          else None
      | _ => None
      end
  end.

(** The text of a list of characters. *)
Fixpoint join (chs : list string) : string :=
  match chs with
  | [] => EmptyString
  | ch :: rest => ch +:+ join rest
  end.

Fixpoint all_continuation (t : string) : bool :=
  match t with
  | EmptyString => true
  | String b rest => is_continuation b && all_continuation rest
  end.

(** A character as [chars] cuts it. *)
Definition is_char (ch : string) : Prop :=
  ∃ b t, ch = String b t ∧ is_continuation b = false ∧ all_continuation t = true.

(** A text that does not start in the middle of a character. *)
Definition starts_char (s : string) : Prop :=
  ∀ b rest, s = String b rest → is_continuation b = false.

Section Pattern.

(** [str.isalnum] on a character beyond ASCII, by code point: the table
    of the Unicode database the interpreter is built with. *)
Variable isalnum : N → bool.

(** [\w] in a [str] pattern: an alphanumeric character or the underscore.
    On ASCII these are the letters, the digits and the underscore. *)
Definition is_word (cp : N) : bool :=
  if (cp <? 128)%N then
    ((48 <=? cp) && (cp <=? 57) || (65 <=? cp) && (cp <=? 90)
     || (97 <=? cp) && (cp <=? 122) || (cp =? 95))%N
  else isalnum cp.

(** The class [[\w']] of the mention pattern. *)
Definition in_class (ch : string) : bool :=
  match code_point ch with
  | Some cp => is_word cp || (cp =? 39)%N
  | None => false
  end.

(** The longest run of characters of the class at the start. *)
Fixpoint take_class (chs : list string) : list string :=
  match chs with
  | ch :: rest => if in_class ch then ch :: take_class rest else []
  | [] => []
  end.

(** The matches of [@[\w']+] in a list of characters.  A match starts at
    an [@] followed by at least one character of the class and takes the
    longest run; the characters of a run are not [@], so no match starts
    inside one and scanning every position finds the same matches as
    resuming after each match. *)
Fixpoint findall_chars (chs : list string) : list string :=
  match chs with
  | [] => []
  | ch :: rest =>
      if String.eqb ch "@" then
        match take_class rest with
        | [] => findall_chars rest
        | run => ("@" +:+ join run) :: findall_chars rest
        end
      else findall_chars rest
  end.

(** [re.findall(r"@[\w']+", entry)]. *)
Definition findall_mention (entry : string) : list string :=
  findall_chars (chars entry).

End Pattern.

(** [str.isalnum] on U+0080 to U+00FF (the feminine and masculine ordinal
    indicators, the superscript digits, the micro sign, the fractions and
    the letters), for sessions whose lines stay within these. *)
Definition isalnum_latin1 (cp : N) : bool :=
  ((cp =? 170) || (cp =? 178) || (cp =? 179) || (cp =? 181) || (cp =? 185)
   || (cp =? 186) || (188 <=? cp) && (cp <=? 190) || (192 <=? cp) && (cp <=? 214)
   || (216 <=? cp) && (cp <=? 246) || (248 <=? cp) && (cp <=? 255))%N.

(** [[self.build_identifier(word[1:]) for word in words
      if word.startswith('@')]]. *)
Fixpoint build_mentioned (words : list string) : M (list pyval) :=
  match words with
  | [] => mret []
  | word :: rest =>
      if startswith "@" word then
        i ← build_identifier (slice1 word);
        others ← build_mentioned rest;
        mret (i :: others)
      else build_mentioned rest
  end.

Definition newline : string := String (ascii_of_nat 10) EmptyString.

Section Session.

(** Whether the error stream is a terminal, and the escape sequences of
    the [ansi] package. *)
Variable ANSI : bool.
Variables fg_red fg_green fg_cyan fx_reset : string.

(** What the host framework does with an inbound message and with a
    mention: anything to the backend's state, or an exception. *)
Variable on_message : Message → M unit.
Variable on_mention : Message → list pyval → M unit.

(** [str.isalnum] beyond ASCII, which the mention pattern consults. *)
Variable isalnum : N → bool.

(** [frm] and [to] of the next message. *)
Definition sender_and_recipient : M (pyval * pyval) :=
  inroom ← gets _inroom;
  if (inroom : bool) then
    u ← gets user;
    rs ← rooms;
    match rs with
    | [] => raise IndexError
    | r0 :: _ => mret (TextOccupant.__init__ u r0, VRoom r0)
    end
  else
    u ← gets user;
    b ← gets bot_identifier;
    mret (u, b).

(** [x in s] with [s] a string: [x] must be a string. *)
Definition in_str (x : pyval) (s : string) : outcome bool :=
  match x with
  | VStr n => Ok (substring_of n s)
  | _ => Raise TypeError
  end.

(** The prompt passed to [input]. *)
Definition prompt (frm to : pyval) : M string :=
  demo ← gets demo_mode;
  if ANSI || (demo : bool) then
    u ← gets user;
    admin ← gets BOT_ADMINS_0;
    up ← lift_outcome (attr_person u);
    is_admin ← lift_outcome (in_str up admin);
    let color := if (is_admin : bool) then fg_red else fg_green in
    h ← gets store;
    f ← lift_outcome (py_str h frm);
    t ← lift_outcome (py_str h to);
    mret (newline +:+ color +:+ "[" +:+ f +:+ " ➡ " +:+ t +:+ "]" +:+ fg_cyan +:+ " >>> " +:+ fx_reset)
  else
    h ← gets store;
    f ← lift_outcome (py_str h frm);
    t ← lift_outcome (py_str h to);
    mret (newline +:+ "[" +:+ f +:+ " ➡ " +:+ t +:+ "] >>> ").

(** What the loop does with a line it has read: the message, then the
    mentions. *)
Definition handle_entry (frm to : pyval) (entry : string) : IO unit :=
  let msg := mkMessage entry frm to in
  _ ← emit (callback_message msg);
  _ ← liftM (on_message msg);
  mentioned ← liftM (build_mentioned (findall_mention isalnum entry));
  match mentioned with
  | [] => mret tt
  | _ => _ ← emit (callback_mention msg mentioned);
         liftM (on_mention msg mentioned)
  end.

(** [while True: ...], one turn of the console per iteration.  There is
    no [break]: the loop is left by an exception only. *)
Fixpoint loop (stdin : list console) : IO unit :=
  ft ← liftM sender_and_recipient;
  p ← liftM (prompt ft.1 ft.2);
  _ ← emit (input p);
  match stdin with
  | [] => liftM (raise EOFError)
  | Interrupt :: _ => liftM (raise KeyboardInterrupt)
  | Line entry :: rest =>
      _ ← handle_entry ft.1 ft.2 entry;
      _ ← emit sleep;
      loop rest
  | Line_then_interrupt entry :: _ =>
      _ ← handle_entry ft.1 ft.2 entry;
      _ ← emit sleep;
      liftM (raise KeyboardInterrupt)
  end.

(** The statements of [serve_forever] before its [try]. *)
Definition startup : IO unit :=
  _ ← emit (inject_commands_from "TextPlugin");
  rs ← liftM (gets _rooms);
  _ ← (match rs with
       | [] => r ← liftM (query_room "#testroom"); liftM (TextRoom.join r)
       | _ => mret tt
       end);
  demo ← liftM (gets demo_mode);
  _ ← (if (demo : bool) then emit remove_console_logging else mret tt);
  _ ← emit connect_callback;
  u ← liftM (gets user);
  emit (callback_presence u ONLINE).

(** The [finally] block. *)
Definition cleanup : IO unit :=
  u ← liftM (gets user);
  _ ← emit (callback_presence u OFFLINE);
  _ ← emit disconnect_callback;
  emit shutdown.

Definition serve_forever (stdin : list console) : IO unit :=
  _ ← startup;
  try_finally (try_pass (loop stdin)) cleanup.

End Session.

(** ** Reactions *)

Definition _react (sign : string) (msg : Message) (reaction : string) : IO unit :=
  emit (send (frm msg) ("reaction " +:+ sign +:+ ":" +:+ reaction +:+ ":") (Some msg)).

Definition add_reaction (msg : Message) (reaction : string) : IO unit :=
  _react "+" msg reaction.

Definition remove_reaction (msg : Message) (reaction : string) : IO unit :=
  _react "-" msg reaction.

(** [build_reply]: from the bot to the sender of [msg]. *)
Definition build_reply (msg : Message) (text : string) : M Message :=
  b ← gets bot_identifier;
  mret (mkMessage text b (frm msg)).

(** ** Sessions as sequences of operations *)

(** What a plugin or the host framework can do to the backend between two
    console reads: resolve identities, start the session, call a room's
    methods, and run the commands of [TextPlugin]. *)
Inductive op :=
| op_query_room (room : string)
| op_build_identifier (text_representation : string)
| op_startup
| op_join (r : loc)
| op_leave (r : loc)
| op_create (r : loc)
| op_destroy (r : loc)
| op_set_topic (r : loc) (topic : string)
| op_inroom
| op_inperson
| op_asuser (args : string)
| op_asadmin.

(** The state an operation leaves, whether it returns or raises. *)
Definition run_op (o : op) (st : TextBackend) : TextBackend :=
  match o with
  | op_query_room room => (query_room room st).2
  | op_build_identifier t => (build_identifier t st).2
  | op_startup => (startup st).1.2
  | op_join r => (TextRoom.join r st).2
  | op_leave r => (TextRoom.leave r st).2
  | op_create r => (TextRoom.create r st).2
  | op_destroy r => (TextRoom.destroy r st).2
  | op_set_topic r t => (TextRoom.topic_setter r t st).2
  | op_inroom => (TextPlugin.inroom st).2
  | op_inperson => (TextPlugin.inperson st).2
  | op_asuser args => (TextPlugin.asuser args st).2
  | op_asadmin => (TextPlugin.asadmin st).2
  end.

Definition run (ops : list op) (st : TextBackend) : TextBackend :=
  foldl (λ s o, run_op o s) st ops.

(** The name of the room a reference points to. *)
Definition room_name (st : TextBackend) (r : loc) : option string :=
  name <$> store st !! r.

(** The names of the registry's entries, in order. *)
Definition registry_names (st : TextBackend) : list (option string) :=
  room_name st <$> _rooms st.

(** Every entry of the registry is an object of the store. *)
Definition rooms_allocated (st : TextBackend) : Prop :=
  Forall (λ r, r < length (store st)) (_rooms st).

(** The registry's invariant: its entries exist and no two have the same
    name. *)
Definition registry_ok (st : TextBackend) : Prop :=
  rooms_allocated st ∧ NoDup (registry_names st).

(** Everything of the backend but the registry and the store. *)
Definition same_attributes (st st' : TextBackend) : Prop :=
  BOT_ADMINS_0 st' = BOT_ADMINS_0 st ∧ bot_identifier st' = bot_identifier st ∧
  _inroom st' = _inroom st ∧ user st' = user st ∧ demo_mode st' = demo_mode st.

(** The events of the [finally] block. *)
Definition is_cleanup (e : event) : bool :=
  match e with
  | callback_presence _ OFFLINE => true
  | disconnect_callback => true
  | shutdown => true
  | _ => false
  end.

Definition is_mention (e : event) : bool :=
  match e with
  | callback_mention _ _ => true
  | _ => false
  end.

(** The console reads. *)
Definition is_input (e : event) : bool :=
  match e with
  | input _ => true
  | _ => false
  end.

(** A session right after [TextBackend.__init__] with the administrator
    [@admin] and the default bot name: no room yet, one-on-one. *)
Definition session0 : TextBackend :=
  mkTextBackend "@admin" (VPerson (TextPerson.__init__ "errbot")) false []
                (VPerson (TextPerson.__init__ "admin")) false [].

(** The session after [query_room('#a').join()]: the room [a] is
    registered and joined. *)
Definition session_in_a : TextBackend :=
  run [op_query_room "#a"; op_join 0] session0.

(** ** States and relations used in the statements *)

(** The state [query_room '#A'] leaves: a new room object in the store,
    and a new entry in the registry unless some entry already has the
    name. *)
Definition after_query_room (A : string) (st : TextBackend) : TextBackend :=
  let self := length (store st) in
  let st1 := set_store (store st ++ [TextRoom.fresh st self A]) st in
  if bool_decide (Some A ∈ registry_names st) then st1
  else set_rooms (_rooms st ++ [self]) st1.

(** [m] takes every state to one related to it by [R], whatever its
    outcome. *)
Definition respects {A} (R : relation TextBackend) (m : M A) : Prop :=
  ∀ st, R st (m st).2.

(** An object of the store is still there, under the same name. *)
Definition names_kept (st st' : TextBackend) : Prop :=
  ∀ r n, room_name st r = Some n → room_name st' r = Some n.

(** The registry keeps its entries, in order, the rooms keep their names,
    and the registry keeps its invariant. *)
Definition registry_grows (st st' : TextBackend) : Prop :=
  _rooms st `prefix_of` _rooms st' ∧ names_kept st st' ∧
  (registry_ok st → registry_ok st').

(** Nothing but the registry and the store changes, and the store keeps
    its objects as they are. *)
Definition store_grows (st st' : TextBackend) : Prop :=
  same_attributes st st' ∧ store st `prefix_of` store st'.

(** The registry is the same, and the objects of the store keep their
    names. *)
Definition keeps_registry (st st' : TextBackend) : Prop :=
  _rooms st' = _rooms st ∧ length (store st) ≤ length (store st') ∧
  ∀ r, r < length (store st) → room_name st' r = room_name st r.

(** What [startup] reports to the host framework. *)
Definition startup_events (st : TextBackend) : list event :=
  inject_commands_from "TextPlugin"
  :: (if demo_mode st then [remove_console_logging] else [])
  ++ [connect_callback; callback_presence (user st) ONLINE].

(** The state [startup] leaves when no room is registered: the store has
    one more object, the joined room [testroom], and the registry holds
    it. *)
Definition with_testroom (st : TextBackend) : TextBackend :=
  let self := length (store st) in
  set_store (store st ++ [TextRoom.set_joined true (TextRoom.fresh st self "testroom")])
            (set_rooms [self] st).

(** Every event [m] emits satisfies [P], and a value it returns
    satisfies [Q]. *)
Definition io_post {A} (P : event → Prop) (Q : A → Prop) (m : IO A) : Prop :=
  ∀ st, Forall P (m st).2 ∧ ∀ a, (m st).1.1 = Ok a → Q a.

(** [m] never returns normally. *)
Definition always_raises {A} (m : IO A) : Prop :=
  ∀ st, ∃ e, (m st).1.1 = Raise e.

(** A handler that fails on every message, and one that accepts all. *)
Definition failing_handler (msg : Message) : M unit := raise (Exception "boom").

Definition accepting_handler (msg : Message) : M unit := mret tt.

Definition ignore_mention (msg : Message) (mentioned : list pyval) : M unit := mret tt.

(** ** The rest of the backend: group-chat replies, construction, the debug echo *)

(** Every room of the store has the three occupants [__init__] gave it. *)
Definition occupants_ok (st : TextBackend) : Prop :=
  ∀ r o, store st !! r = Some o →
         _occupants o = _occupants (TextRoom.fresh st r (name o)).

(** The configuration and the bot's identity are kept, and the rooms keep
    their occupants. *)
Definition config_kept (st st' : TextBackend) : Prop :=
  BOT_ADMINS_0 st' = BOT_ADMINS_0 st ∧ bot_identifier st' = bot_identifier st ∧
  (occupants_ok st → occupants_ok st').

Definition is_person (v : pyval) : Prop := ∃ p, v = VPerson p.

(** A session in which a turn of the loop can be started: the user and the
    bot are persons, and there is a first room to be in. *)
Definition session_wf (st : TextBackend) : Prop :=
  is_person (user st) ∧ is_person (bot_identifier st) ∧
  rooms_allocated st ∧ _rooms st ≠ [].

(** The messages handed to the host framework, in order. *)
Definition messages (tr : list event) : list Message :=
  omap (λ e, match e with callback_message m => Some m | _ => None end) tr.

(** [v.nick]: [None] unless a person was constructed with one; an occupant
    is constructed without.  Strings and rooms have no such attribute. *)
Definition attr_nick (v : pyval) : outcome (option string) :=
  match v with
  | VPerson p => Ok (TextPerson.nick p)
  | VOccupant _ _ => Ok None
  | VStr _ => Raise AttributeError
  | VRoom _ => Raise AttributeError
  end.

(** ['{0}'.format(x)] for a string or [None]. *)
Definition format_optional (x : option string) : string :=
  match x with
  | Some s => s
  | None => "None"
  end.

(** [message.body = '@{0} {1}'.format(identifier.nick, message.body)]:
    the message with its new body. *)
Definition prefix_groupchat_reply (message : Message) (identifier : pyval) : outcome Message :=
  match attr_nick identifier with
  | Ok n =>
      Ok (mkMessage ("@" +:+ format_optional n +:+ " " +:+ body message)
                    (frm message) (to message))
  | Raise e => Raise e
  end.

(** The configuration [__init__] reads: the administrators, the bot's
    user name when [BOT_IDENTITY] has one, and the demo flag when the
    configuration has one. *)
Record bot_config := mk_bot_config {
  BOT_ADMINS : list string;
  BOT_IDENTITY_username : option string;
  TEXT_DEMO_MODE : option bool
}.

(** The token for the bot's identity: the configured user name, or
    [@errbot]. *)
Definition bot_username (config : bot_config) : string :=
  match BOT_IDENTITY_username config with
  | Some u => u
  | None => "@errbot"
  end.

(** [TEXT_DEMO_MODE] if the configuration has it, else [False]. *)
Definition demo_flag (config : bot_config) : bool :=
  match TEXT_DEMO_MODE config with
  | Some d => d
  | None => false
  end.

Module TextBackend.

Section Init.

(** [build_identifier] on a room token while the backend is still being
    constructed ([bot_identifier] and [_rooms] are assigned later in
    [__init__]): what it does depends on what the constructor of the host
    framework has set, which this file does not show. *)
Variable room_token_before_init : string → outcome pyval.

(** The first assignment of [__init__]:
    [self.bot_identifier = self.build_identifier(username)]. *)
Definition initial_bot_identifier (config : bot_config) : outcome pyval :=
  let username := bot_username config in
  if startswith "#" username then room_token_before_init username
  else if negb (startswith "@" username) then Raise InvalidIdentifier
  else Ok (VPerson (TextPerson.__init__ (slice1 username))).

(** [TextBackend.__init__]: the attributes of the backend (the rendering
    attributes are in [init_rendering]).  The user is resolved last, when
    the other attributes are set; [build_identifier] does not read
    [self.user]. *)
Definition __init__ (config : bot_config) : outcome TextBackend :=
  match initial_bot_identifier config with
  | Raise e => Raise e
  | Ok bot =>
      let demo := demo_flag config in
      match BOT_ADMINS config with
      | [] => Raise IndexError
      | admin :: _ =>
          match build_identifier admin (mkTextBackend admin bot false [] bot demo []) with
          | (Ok u, st) => Ok (set_user u st)
          | (Raise e, _) => Raise e
          end
      end
  end.

End Init.

End TextBackend.

Inductive lexer := lexer_md | lexer_html.

Inductive formatter := Terminal256Formatter (style : string).

(** The rendering attributes of the backend; [None] for an attribute that
    [__init__] has not set. *)
Record rendering := mk_rendering {
  md_html : option (string → string);
  md_text : option (string → string);
  md_borderless_ansi : option (string → string);
  md_im : option (string → string);
  md_lexer : option lexer;
  md_ansi : option (string → string);
  html_lexer : option lexer;
  terminal_formatter : option formatter
}.

(** What [send_message] does to the outside, in order. *)
Inductive output :=
| print (s : string)
| super_send_message (msg : Message).

(** Output so far, and an outcome. *)
Definition W (A : Type) : Type := outcome A * list output.

#[global] Instance W_ret : MRet W := λ A a, (Ok a, []).
#[global] Instance W_bind : MBind W := λ A B f m,
  match m with
  | (Ok a, out) => let '(o, out') := f a in (o, out ++ out')
  | (Raise e, out) => (Raise e, out)
  end.

Definition put (o : output) : W unit := (Ok tt, [o]).

(** The strings printed, in order. *)
Definition prints (out : list output) : list string :=
  omap (λ o, match o with print s => Some s | super_send_message _ => None end) out.

(** Reading an attribute that may not be set. *)
Definition attr {A} (a : option A) : W A :=
  match a with
  | Some x => (Ok x, [])
  | None => (Raise AttributeError, [])
  end.

Fixpoint repeat_string (s : string) (n : nat) : string :=
  match n with
  | 0 => EmptyString
  | S n => s +:+ repeat_string s n
  end.

(** [bar.format(mode=mode)]. *)
Definition bar (mode : string) : string :=
  newline +:+ "╌╌[" +:+ mode +:+ "]" +:+ repeat_string "╌" 60.

Section Rendering.

(** The [convert] methods of the converters that [xhtml()], [text()],
    [imtext()], [ansi()] and [borderless_ansi()] make, and [highlight] of
    pygments. *)
Variables xhtml_convert text_convert imtext_convert ansi_convert
          borderless_ansi_convert : string → string.
Variable highlight : string → lexer → formatter → string.

(** The rendering attributes as [__init__] sets them. *)
Definition init_rendering (demo_mode : bool) : rendering :=
  mk_rendering
    (if demo_mode then None else Some xhtml_convert)
    (if demo_mode then None else Some text_convert)
    (if demo_mode then None else Some borderless_ansi_convert)
    (if demo_mode then None else Some imtext_convert)
    (if demo_mode then None else Some lexer_md)
    (Some ansi_convert)
    (Some lexer_html)
    (Some (Terminal256Formatter "paraiso-dark")).

Definition send_message (self : rendering) (demo_mode ANSI : bool) (msg : Message) : W unit :=
  if demo_mode then
    c ← attr (md_ansi self); put (print (c (body msg)))
  else
    _ ← put (super_send_message msg);
    _ ← put (print (bar "MD  "));
    _ ← (if ANSI then
           l ← attr (md_lexer self); f ← attr (terminal_formatter self);
           put (print (highlight (body msg) l f))
         else put (print (body msg)));
    _ ← put (print (bar "HTML"));
    c ← attr (md_html self);
    let html := c (body msg) in
    _ ← (if ANSI then
           l ← attr (html_lexer self); f ← attr (terminal_formatter self);
           put (print (highlight html l f))
         else put (print html));
    _ ← put (print (bar "TEXT"));
    c ← attr (md_text self);
    _ ← put (print (c (body msg)));
    _ ← put (print (bar "IM  "));
    c ← attr (md_im self);
    _ ← put (print (c (body msg)));
    _ ← (if ANSI then
           _ ← put (print (bar "ANSI"));
           c ← attr (md_ansi self);
           _ ← put (print (c (body msg)));
           _ ← put (print (bar "BORDERLESS"));
           c ← attr (md_borderless_ansi self);
           put (print (c (body msg)))
         else mret tt);
    put (print (newline +:+ newline)).

End Rendering.

(** * Proofs *)

Ltac unfold_M :=
  unfold update_room, get_room, gets, modify, raise, lift_outcome,
         mbind, mret, M_bind, M_ret in *.

(** ** The store *)

Lemma deref_Some (h : list TextRoom) r o : h !! r = Some o → deref h r = Ok o.
Proof. unfold deref. by intros ->. Qed.

Lemma deref_app (h k : list TextRoom) r : r < length h → deref (h ++ k) r = deref h r.
Proof. intros Hr. unfold deref. by rewrite lookup_app_l. Qed.

Lemma deref_new (h : list TextRoom) o : deref (h ++ [o]) (length h) = Ok o.
Proof. apply deref_Some. by rewrite list_lookup_middle. Qed.

Lemma deref_allocated (h : list TextRoom) r : r < length h → ∃ o, h !! r = Some o ∧ deref h r = Ok o.
Proof.
  intros Hr. destruct (lookup_lt_is_Some_2 h r Hr) as [o Ho].
  exists o. split; [done | by apply deref_Some].
Qed.

(** ** Membership in the registry *)

(** Looking for a room that was just created among rooms that existed
    before compares names only. *)
Lemma list_contains_new (h : list TextRoom) o rs :
  Forall (λ r, r < length h) rs →
  list_contains (h ++ [o]) (length h) rs
  = Ok (bool_decide (Some (name o) ∈ (λ r, name <$> h !! r) <$> rs)).
Proof.
  induction 1 as [|r rs Hr Hrs IH]; [done|].
  cbn [list_contains fmap list_fmap].
  rewrite bool_decide_eq_false_2 by lia.
  destruct (deref_allocated h r Hr) as (a & Ha & Hd).
  unfold TextRoom.__eq__. rewrite deref_app, Hd, deref_new by done.
  rewrite Ha. cbn [fmap option_fmap option_map].
  destruct (String.eqb_spec (name a) (name o)) as [Heq | Hne].
  - rewrite Heq. rewrite bool_decide_eq_true_2; [done | left].
  - rewrite IH. f_equal. apply bool_decide_ext.
    rewrite elem_of_cons. split; [by right|]. intros [[=] | ?]; [congruence | done].
Qed.

Lemma registry_names_alloc st k :
  rooms_allocated st → registry_names (set_store (store st ++ k) st) = registry_names st.
Proof.
  unfold registry_names, rooms_allocated, room_name. cbn.
  induction 1 as [|r rs Hr Hrs IH]; [done|]. cbn. rewrite IH. f_equal.
  by rewrite lookup_app_l.
Qed.

(** ** [query_room] *)

Lemma query_room_spec A st :
  rooms_allocated st →
  query_room (String "#" A) st = (Ok (length (store st)), after_query_room A st).
Proof.
  intros Hst. unfold query_room, after_query_room. cbn [Ascii.eqb negb].
  unfold_M. unfold TextRoom.__init__. cbn.
  rewrite list_contains_new by done. cbn.
  fold (room_name st). fold (registry_names st).
  by destruct (bool_decide _).
Qed.

Lemma after_query_room_store A st :
  store (after_query_room A st)
  = store st ++ [TextRoom.fresh st (length (store st)) A].
Proof. unfold after_query_room. by destruct (bool_decide _). Qed.

Lemma after_query_room_rooms A st :
  _rooms (after_query_room A st)
  = if bool_decide (Some A ∈ registry_names st) then _rooms st
    else _rooms st ++ [length (store st)].
Proof. unfold after_query_room. by destruct (bool_decide _). Qed.

Lemma after_query_room_attributes A st : same_attributes st (after_query_room A st).
Proof. unfold after_query_room, same_attributes. by destruct (bool_decide _). Qed.

Lemma after_query_room_allocated A st :
  rooms_allocated st → rooms_allocated (after_query_room A st).
Proof.
  unfold rooms_allocated. intros Hst.
  rewrite after_query_room_store, after_query_room_rooms, length_app. cbn.
  destruct (bool_decide _).
  - eapply Forall_impl; [done | cbn; lia].
  - apply Forall_app. split; [eapply Forall_impl; [done | cbn; lia] |].
    apply Forall_singleton. lia.
Qed.

Lemma after_query_room_names A st :
  rooms_allocated st →
  registry_names (after_query_room A st)
  = if bool_decide (Some A ∈ registry_names st) then registry_names st
    else registry_names st ++ [Some A].
Proof.
  intros Hst. unfold after_query_room. cbn zeta.
  destruct (bool_decide _); [by apply registry_names_alloc|].
  unfold registry_names at 1. cbn [_rooms set_rooms]. rewrite fmap_app.
  f_equal.
  - apply (registry_names_alloc st _ Hst).
  - cbn. unfold room_name. cbn. by rewrite list_lookup_middle.
Qed.

Lemma after_query_room_registered A st :
  rooms_allocated st → Some A ∈ registry_names (after_query_room A st).
Proof.
  intros Hst. rewrite after_query_room_names by done.
  case_bool_decide; [done|]. apply elem_of_app. right. by left.
Qed.

Lemma after_query_room_ok A st : registry_ok st → registry_ok (after_query_room A st).
Proof.
  intros [Hst Hnd]. split; [by apply after_query_room_allocated|].
  rewrite after_query_room_names by done.
  case_bool_decide as Hin; [done|].
  apply NoDup_app. split_and!; [done | | apply NoDup_singleton].
  intros x Hx [->|[]%elem_of_nil]%elem_of_cons. done.
Qed.

(** Resolving a name that is registered changes nothing but the store. *)
Lemma after_query_room_again A st :
  Some A ∈ registry_names st → _rooms (after_query_room A st) = _rooms st.
Proof. intros Hin. rewrite after_query_room_rooms. by rewrite bool_decide_eq_true_2. Qed.

Lemma room_name_allocated st r : r < length (store st) → is_Some (room_name st r).
Proof.
  intros Hr. unfold room_name.
  destruct (lookup_lt_is_Some_2 _ _ Hr) as [o ->]. by eexists.
Qed.

(** ** Relations between the states before and after a method *)

Section Respects.
Context (R : relation TextBackend) `{!PreOrder R}.

Lemma respects_bind {A B} (m : M A) (f : A → M B) :
  respects R m → (∀ a, respects R (f a)) → respects R (m ≫= f).
Proof.
  intros Hm Hf st. specialize (Hm st). unfold mbind, M_bind.
  destruct (m st) as [[a|e] st1]; cbn in *; [|done].
  etrans; [exact Hm | apply Hf].
Qed.

Lemma respects_ret {A} (a : A) : respects R (mret a).
Proof. intros st. reflexivity. Qed.

Lemma respects_raise {A} e : respects R (raise (A := A) e).
Proof. intros st. reflexivity. Qed.

Lemma respects_gets {A} (f : TextBackend → A) : respects R (gets f).
Proof. intros st. reflexivity. Qed.

Lemma respects_lift_outcome {A} (o : outcome A) : respects R (lift_outcome o).
Proof. intros st. reflexivity. Qed.

Lemma respects_get_room r : respects R (get_room r).
Proof. intros st. reflexivity. Qed.

Lemma respects_modify f : (∀ st, R st (f st)) → respects R (modify f).
Proof. intros Hf st. apply Hf. Qed.

End Respects.

(** Breaks a method into its binds and branches, leaving the primitive
    steps that change the state. *)
Ltac respects_step :=
  first
    [ apply respects_ret | apply respects_raise | apply respects_gets
    | apply respects_lift_outcome | apply respects_get_room
    | apply respects_bind; [ .. | intros ?]
    | match goal with
      | |- respects _ (match ?x with _ => _ end) => destruct x
      | |- respects _ (if ?b then _ else _) => destruct b
      end ];
  try apply _.

Ltac respects_raise := apply respects_raise; apply _.

#[local] Instance registry_grows_preorder : PreOrder registry_grows.
Proof.
  split.
  - intros st. split_and!; [done | by intros r n | done].
  - intros st1 st2 st3 (Hp1 & Hn1 & Hk1) (Hp2 & Hn2 & Hk2).
    split_and!; [by etrans | | auto]. intros r n Hr. auto.
Qed.

#[local] Instance store_grows_preorder : PreOrder store_grows.
Proof.
  split.
  - intros st. by repeat split.
  - intros st1 st2 st3 [(?&?&?&?&?) Hp1] [(?&?&?&?&?) Hp2].
    split; [unfold same_attributes; split_and!; congruence | by etrans].
Qed.

Lemma keeps_registry_grows st st' : keeps_registry st st' → registry_grows st st'.
Proof.
  intros (Hr & Hl & Hn). split_and!; [by rewrite Hr | |].
  { intros r n Hrn. rewrite Hn; [done|].
    unfold room_name in Hrn. apply fmap_Some in Hrn as (o & Ho & _).
    by eapply lookup_lt_Some. }
  intros [Hst Hnd]. unfold registry_ok, rooms_allocated, registry_names in *.
  rewrite Hr. split.
  - eapply Forall_impl; [done | cbn; lia].
  - erewrite (Forall_fmap_ext_1 (room_name st')); [done|].
    eapply Forall_impl; [exact Hst | cbn; auto].
Qed.

Lemma keeps_registry_alloc st o : keeps_registry st (set_store (store st ++ [o]) st).
Proof.
  split_and!; [done | cbn; rewrite length_app; lia |].
  intros r Hr. unfold room_name. cbn [store set_store]. by rewrite lookup_app_l.
Qed.

Lemma keeps_registry_update st r o f :
  store st !! r = Some o → name (f o) = name o →
  keeps_registry st (set_store (<[r := f o]> (store st)) st).
Proof.
  intros Ho Hf. split_and!; [done | cbn; by rewrite length_insert |].
  intros r' Hr'. unfold room_name. cbn [store set_store].
  destruct (decide (r = r')) as [<-|Hne].
  - rewrite list_lookup_insert_eq by done. rewrite Ho. cbn. by rewrite Hf.
  - by rewrite list_lookup_insert_ne.
Qed.

Lemma keeps_registry_set_user st u : keeps_registry st (set_user u st).
Proof. by split_and!. Qed.

Lemma keeps_registry_set_inroom st b : keeps_registry st (set_inroom b st).
Proof. by split_and!. Qed.

(** *** The methods of rooms *)

Lemma update_room_Some r f st o :
  store st !! r = Some o →
  update_room r f st = (Ok tt, set_store (<[r := f o]> (store st)) st).
Proof. intros Ho. unfold_M. cbv beta iota. unfold deref. by rewrite Ho. Qed.

Lemma update_room_None r f st :
  store st !! r = None → update_room r f st = (Raise Dangling, st).
Proof. intros Ho. unfold_M. cbv beta iota. unfold deref. by rewrite Ho. Qed.

Lemma update_room_registry r f :
  (∀ o, name (f o) = name o) → respects registry_grows (update_room r f).
Proof.
  intros Hf st. destruct (store st !! r) as [o|] eqn:Ho.
  - rewrite (update_room_Some _ _ _ o) by done. cbn.
    apply keeps_registry_grows, keeps_registry_update; auto.
  - rewrite update_room_None by done. reflexivity.
Qed.

Lemma init_registry A : respects registry_grows (TextRoom.__init__ A).
Proof. intros st. apply keeps_registry_grows, keeps_registry_alloc. Qed.

Lemma init_store A : respects store_grows (TextRoom.__init__ A).
Proof. intros st. split; [done | by apply prefix_app_r]. Qed.

(** *** [query_room] and [build_identifier] *)

Lemma query_room_store room : respects store_grows (query_room room).
Proof.
  unfold query_room. destruct room as [|c rest]; [respects_raise|].
  destruct (Ascii.eqb c "#"); cbn [negb]; [|respects_raise].
  repeat respects_step; try apply init_store.
  apply respects_modify. intros st. by split.
Qed.

Lemma query_room_prefix room st : _rooms st `prefix_of` _rooms (query_room room st).2.
Proof.
  unfold query_room. destruct room as [|c rest]; [done|].
  destruct (Ascii.eqb c "#"); cbn [negb]; [|done]. unfold_M. cbn.
  destruct (list_contains _ _ _) as [[]|]; cbn; try done.
  by apply prefix_app_r.
Qed.

Lemma store_grows_names st st' : store_grows st st' → names_kept st st'.
Proof.
  intros [_ [k Hk]] r n. unfold room_name. rewrite Hk.
  intros (o & Ho & ->)%fmap_Some. by rewrite (lookup_app_l_Some _ _ _ _ Ho).
Qed.

Lemma query_room_registry room : respects registry_grows (query_room room).
Proof.
  intros st. split_and!;
    [apply query_room_prefix | apply store_grows_names, query_room_store |].
  intros Hok.
  destruct room as [|c rest]; [done|].
  destruct (Ascii.eqb_spec c "#") as [->|Hne].
  - rewrite query_room_spec by apply Hok. by apply after_query_room_ok.
  - unfold query_room. apply Ascii.eqb_neq in Hne. by rewrite Hne.
Qed.

Lemma build_identifier_registry t : respects registry_grows (build_identifier t).
Proof.
  unfold build_identifier.
  repeat respects_step; try apply init_registry; apply query_room_registry.
Qed.

Lemma build_identifier_store t : respects store_grows (build_identifier t).
Proof.
  unfold build_identifier.
  repeat respects_step; try apply init_store; apply query_room_store.
Qed.

(** ** Strings *)

Lemma append_nil (s : string) : "" +:+ s = s.
Proof. reflexivity. Qed.

Lemma append_cons c (a b : string) : String c a +:+ b = String c (a +:+ b).
Proof. reflexivity. Qed.

Lemma split_no_sep c s : contains c s = false → split c s = [s].
Proof.
  induction s as [|c' s IH]; [done|]. cbn.
  intros [Hc Hs]%orb_false_elim. rewrite IH by done. by rewrite Hc.
Qed.

Lemma split_one_sep c a b :
  contains c a = false → contains c b = false →
  split c (a +:+ String c b) = [a; b].
Proof.
  intros Ha Hb. induction a as [|c' a IH].
  - rewrite append_nil. cbn. rewrite split_no_sep by done. by rewrite Ascii.eqb_refl.
  - cbn in Ha. apply orb_false_elim in Ha as [Hc Ha].
    rewrite append_cons. cbn. rewrite IH by done. by rewrite Hc.
Qed.

Lemma contains_app_sep c a b : contains c (a +:+ String c b) = true.
Proof.
  induction a as [|c' a IH].
  - rewrite append_nil. cbn. by rewrite Ascii.eqb_refl.
  - rewrite append_cons. cbn. rewrite IH. apply orb_true_r.
Qed.

(** ** Identity resolution *)

(** C7: a token that starts with neither [#] nor [@] (the empty token
    too) makes [build_identifier] raise the [ValueError] that the spec
    calls InvalidIdentifier, leaving the backend as it was; a token that
    starts with [@] resolves to a person whose identifier is the token
    without its first character, in every state. *)
Theorem build_identifier_by_prefix t st :
  (startswith "#" t = false → startswith "@" t = false →
   build_identifier t st = (Raise InvalidIdentifier, st)) ∧
  (startswith "@" t = true →
   ∃ p, build_identifier t st = (Ok (VPerson p), st) ∧
        TextPerson.person p = slice1 t).
Proof.
  unfold build_identifier. split.
  - by intros -> ->.
  - intros Hat. destruct t as [|c t]; [done|]. cbn in Hat.
    apply Ascii.eqb_eq in Hat as ->. cbn. by eexists.
Qed.

Lemma build_identifier_by_prefix_witness :
  build_identifier "" session0 = (Raise InvalidIdentifier, session0) ∧
  build_identifier "bob" session0 = (Raise InvalidIdentifier, session0) ∧
  ∃ p, build_identifier "@bob" session0 = (Ok (VPerson p), session0) ∧
       TextPerson.person p = "bob".
Proof.
  split_and!.
  - apply (build_identifier_by_prefix "" session0); reflexivity.
  - apply (build_identifier_by_prefix "bob" session0); reflexivity.
  - apply (build_identifier_by_prefix "@bob" session0); reflexivity.
Defined.

(** C2, the claim as stated fails, in two ways.  A token of the form
    [#room/person] whose person part contains a slash, [#a/b/c], does not
    resolve to an occupant: the unpacking of the split raises
    [ValueError].  And the room of the occupant is not constructed "by
    name if absent", it is constructed, and never registered: with no
    room registered, resolving [#a/b] leaves the registry empty; with the
    room [a] registered and joined, resolving [#a/b] constructs another
    object named [a], not joined, and the occupant is in that one, while
    the registry keeps the first. *)
Lemma build_identifier_occupant_counterexamples :
  build_identifier "#a/b/c" session0
  = (Raise (ValueError "too many values to unpack (expected 2)"), session0) ∧
  ((build_identifier "#a/b" session0).1
   = Ok (VOccupant (VPerson (TextPerson.__init__ "b")) 0) ∧
   _rooms (build_identifier "#a/b" session0).2 = []) ∧
  ((build_identifier "#a/b" session_in_a).1
   = Ok (VOccupant (VPerson (TextPerson.__init__ "b")) 1) ∧
   _rooms (build_identifier "#a/b" session_in_a).2 = [0] ∧
   room_name (build_identifier "#a/b" session_in_a).2 0 = Some "a" ∧
   (TextRoom.joined 0 (build_identifier "#a/b" session_in_a).2).1 = Ok true ∧
   room_name (build_identifier "#a/b" session_in_a).2 1 = Some "a" ∧
   (TextRoom.joined 1 (build_identifier "#a/b" session_in_a).2).1 = Ok false).
Proof. split_and!; vm_compute; reflexivity. Qed.

(** C2, amended: for every token [#room/person] with exactly one slash
    (none in [room], none in [person]) and in every state, whether a room
    of that name is registered or not, [build_identifier] returns an
    occupant whose person has the identifier [person] and whose room is a
    newly constructed room named [room]; the backend changes by this new
    object only, the registry is as it was.  For every token, resolution
    leaves the attributes of the
    backend other than the registry as they were, keeps the objects of the
    store, keeps the entries of the registry, and keeps the registry free
    of two entries with one name. *)
Theorem build_identifier_occupant room person st :
  contains "/" room = false → contains "/" person = false →
  let r := length (store st) in
  let st' := set_store (store st ++ [TextRoom.fresh st r room]) st in
  build_identifier ("#" +:+ room +:+ "/" +:+ person) st
  = (Ok (VOccupant (VPerson (TextPerson.__init__ person)) r), st') ∧
  attr_person (VOccupant (VPerson (TextPerson.__init__ person)) r)
  = Ok (VPerson (TextPerson.__init__ person)) ∧
  TextPerson.person (TextPerson.__init__ person) = person ∧
  room_name st' r = Some room ∧
  _rooms st' = _rooms st ∧
  ∀ t, let st'' := (build_identifier t st).2 in
       same_attributes st st'' ∧ store st `prefix_of` store st'' ∧
       _rooms st `prefix_of` _rooms st'' ∧ (registry_ok st → registry_ok st'').
Proof.
  intros Hroom Hperson r st'. split_and!; try done.
  - unfold build_identifier.
    change ("#" +:+ room +:+ "/" +:+ person)
      with (String "#" (room +:+ String "/" person)).
    cbn [startswith slice1 contains Ascii.eqb]. 
    rewrite contains_app_sep, orb_true_r, split_one_sep by done.
    reflexivity.
  - unfold room_name, st', r. cbn [store set_store]. by rewrite list_lookup_middle.
  - intros t st''.
    destruct (build_identifier_store t st) as [Hattr Hstore].
    destruct (build_identifier_registry t st) as (Hrooms & _ & Hok).
    done.
Qed.

Lemma build_identifier_occupant_witness :
  build_identifier "#a/bob" session0
  = (Ok (VOccupant (VPerson (TextPerson.__init__ "bob")) 0),
     set_store [TextRoom.fresh session0 0 "a"] session0).
Proof.
  apply (build_identifier_occupant "a" "bob" session0); reflexivity.
Defined.

(** ** The start of the session *)

Ltac unfold_IO :=
  unfold emit, liftM, mbind, mret, IO_bind, IO_ret in *.

Lemma startup_empty st :
  _rooms st = [] → startup st = (Ok tt, with_testroom st, startup_events st).
Proof.
  intros Hrs.
  assert (Hal : rooms_allocated st) by (unfold rooms_allocated; rewrite Hrs; constructor).
  unfold startup, startup_events, with_testroom. unfold_IO.
  cbn -[query_room TextRoom.join].
  rewrite Hrs, query_room_spec by done.
  unfold after_query_room, registry_names. rewrite Hrs. cbn [fmap list_fmap].
  rewrite bool_decide_eq_false_2 by apply not_elem_of_nil.
  cbn zeta. unfold TextRoom.join.
  erewrite update_room_Some; last first.
  { cbn [store set_store set_rooms]. apply list_lookup_middle. done. }
  cbn [store set_store set_rooms _rooms demo_mode user app].
  rewrite insert_app_r_alt by done. rewrite Nat.sub_diag. cbn [insert list_insert].
  by destruct (demo_mode st).
Qed.

Lemma startup_nonempty st :
  _rooms st ≠ [] → startup st = (Ok tt, st, startup_events st).
Proof.
  intros Hrs. unfold startup, startup_events. unfold_IO. cbn -[query_room].
  destruct (_rooms st); [done|]. by destruct (demo_mode st).
Qed.

Lemma startup_registry st : registry_grows st (startup st).1.2.
Proof.
  destruct (_rooms st) as [|r rs] eqn:Hrs.
  - rewrite startup_empty by done. cbn. split_and!.
    + rewrite Hrs. apply prefix_nil.
    + intros r' n. unfold room_name. cbn.
      intros (o & Ho & ->)%fmap_Some. by rewrite (lookup_app_l_Some _ _ _ _ Ho).
    + intros _. split.
      * apply Forall_singleton. cbn. rewrite length_app. cbn. lia.
      * unfold registry_names. cbn. apply NoDup_singleton.
  - rewrite startup_nonempty by (by rewrite Hrs). reflexivity.
Qed.

(** ** The operations of a session keep the registry *)

Lemma plugin_inroom_registry : respects registry_grows TextPlugin.inroom.
Proof.
  unfold TextPlugin.inroom. repeat respects_step.
  apply respects_modify. intros st. apply keeps_registry_grows, keeps_registry_set_inroom.
Qed.

Lemma plugin_inperson_registry : respects registry_grows TextPlugin.inperson.
Proof.
  unfold TextPlugin.inperson. repeat respects_step.
  apply respects_modify. intros st. apply keeps_registry_grows, keeps_registry_set_inroom.
Qed.

Lemma set_user_registry u : respects registry_grows (modify (set_user u)).
Proof.
  apply respects_modify. intros st. apply keeps_registry_grows, keeps_registry_set_user.
Qed.

Lemma plugin_asuser_registry args : respects registry_grows (TextPlugin.asuser args).
Proof.
  unfold TextPlugin.asuser.
  repeat respects_step; first [apply set_user_registry | apply build_identifier_registry].
Qed.

Lemma plugin_asadmin_registry : respects registry_grows TextPlugin.asadmin.
Proof.
  unfold TextPlugin.asadmin.
  repeat respects_step; first [apply set_user_registry | apply build_identifier_registry].
Qed.

Lemma run_op_registry o st : registry_grows st (run_op o st).
Proof.
  destruct o; cbn [run_op].
  - apply query_room_registry.
  - apply build_identifier_registry.
  - apply startup_registry.
  - by apply update_room_registry.
  - by apply update_room_registry.
  - by apply update_room_registry.
  - by apply update_room_registry.
  - by apply update_room_registry.
  - apply plugin_inroom_registry.
  - apply plugin_inperson_registry.
  - apply plugin_asuser_registry.
  - apply plugin_asadmin_registry.
Qed.

Lemma run_registry ops st : registry_grows st (run ops st).
Proof.
  revert st. induction ops as [|o ops IH]; intros st; [reflexivity|].
  cbn. etrans; [apply (run_op_registry o) | apply IH].
Qed.

Lemma run_app ops1 ops2 st : run (ops1 ++ ops2) st = run ops2 (run ops1 st).
Proof. apply foldl_app. Qed.

(** ** Resolving a room twice *)

(** C1, the claim as stated fails: in the session [session0], joining the
    room that [query_room '#A'] returns and resolving [#A] again yields a
    second object (reference 1, not 0) that is not joined and is not the
    registry's entry. *)
Lemma query_room_twice_not_identical :
  (r1 ← query_room "#A"; _ ← TextRoom.join r1; r2 ← query_room "#A";
   j1 ← TextRoom.joined r1; j2 ← TextRoom.joined r2; rs ← rooms;
   mret (r1, r2, j1, j2, rs)) session0
  = (Ok (0, 1, true, false, [0]),
     run [op_query_room "#A"; op_join 0; op_query_room "#A"] session0).
Proof. vm_compute. reflexivity. Qed.

(** C1, amended: for every room name [A], resolving [#A] with
    [query_room], doing anything a session can do (joining the room,
    setting its topic, ...), and resolving [#A] again succeeds both times
    and returns two rooms named [A], equal under [TextRoom.__eq__].  After
    the first resolution the registry has an entry named [A]; the second
    resolution leaves the registry as it is and leaves the first result's
    object as it is.  The second result is a newly constructed room (not
    joined, empty topic), a different object from the first and not an
    entry of the registry, so what was done to the first result does not
    show through it. *)
Theorem query_room_twice_equal_rooms A ops st :
  registry_ok st →
  ∃ r1 st1 r2 st2,
    query_room (String "#" A) st = (Ok r1, st1) ∧
    query_room (String "#" A) (run ops st1) = (Ok r2, st2) ∧
    room_name st2 r1 = Some A ∧ room_name st2 r2 = Some A ∧
    TextRoom.__eq__ (store st2) r1 (VRoom r2) = Ok true ∧
    Some A ∈ registry_names st1 ∧
    _rooms st2 = _rooms (run ops st1) ∧
    store st2 !! r1 = store (run ops st1) !! r1 ∧
    r2 ≠ r1 ∧ (r2 ∉ _rooms st2) ∧
    store st2 !! r2 = Some (TextRoom.fresh (run ops st1) r2 A) ∧
    _joined (TextRoom.fresh (run ops st1) r2 A) = false ∧
    _topic (TextRoom.fresh (run ops st1) r2 A) = "" ∧
    registry_ok st2.
Proof.
  intros Hok. pose proof Hok as [Hst _].
  pose proof (after_query_room_ok A st Hok) as Hok1.
  pose proof (after_query_room_registered A st Hst) as Hin.
  exists (length (store st)), (after_query_room A st).
  set (st1 := after_query_room A st) in *.
  destruct (run_registry ops st1) as (Hpre & Hnames & Hok').
  specialize (Hok' Hok1). pose proof Hok' as [Hst' _].
  set (st1' := run ops st1) in *.
  exists (length (store st1')), (after_query_room A st1').
  rewrite !query_room_spec by done.
  assert (H1 : room_name st1' (length (store st)) = Some A).
  { apply Hnames. unfold room_name, st1. rewrite after_query_room_store.
    by rewrite list_lookup_middle. }
  assert (Hlt : length (store st) < length (store st1')).
  { unfold room_name in H1. apply fmap_Some in H1 as (o & Ho & _).
    by eapply lookup_lt_Some. }
  assert (Hin' : Some A ∈ registry_names st1').
  { destruct Hpre as [k Hk]. unfold registry_names in *. rewrite Hk, fmap_app.
    apply elem_of_app. left.
    apply list_elem_of_fmap in Hin as (r & Hr & Hrin).
    apply list_elem_of_fmap. exists r. split; [|done].
    symmetry. apply Hnames. by symmetry. }
  assert (H1' : store (after_query_room A st1') !! length (store st)
                = store st1' !! length (store st)).
  { rewrite after_query_room_store. by apply lookup_app_l. }
  assert (H2 : store (after_query_room A st1') !! length (store st1')
               = Some (TextRoom.fresh st1' (length (store st1')) A)).
  { rewrite after_query_room_store. by rewrite list_lookup_middle. }
  unfold room_name in H1. apply fmap_Some in H1 as (o1 & Ho1 & Hn1).
  split_and!; try done.
  - unfold room_name. by rewrite H1', Ho1, Hn1.
  - unfold room_name. by rewrite H2.
  - unfold TextRoom.__eq__, deref. rewrite H1', Ho1, H2. cbn.
    rewrite <- Hn1. by rewrite String.eqb_refl.
  - by apply after_query_room_again.
  - lia.
  - rewrite after_query_room_again by done. intros Hr.
    unfold rooms_allocated in Hst'. rewrite Forall_forall in Hst'.
    specialize (Hst' _ Hr). cbn in Hst'. lia.
  - by apply after_query_room_ok.
Qed.

Lemma query_room_twice_equal_rooms_witness :
  registry_ok session0 ∧
  ∃ r1 st1 r2 st2,
    query_room "#A" session0 = (Ok r1, st1) ∧
    query_room "#A" (run [op_join 0; op_set_topic 0 "news"] st1) = (Ok r2, st2) ∧
    room_name st2 r1 = Some "A" ∧ room_name st2 r2 = Some "A" ∧
    TextRoom.__eq__ (store st2) r1 (VRoom r2) = Ok true ∧
    Some "A" ∈ registry_names st1 ∧
    _rooms st2 = _rooms (run [op_join 0; op_set_topic 0 "news"] st1) ∧
    store st2 !! r1 = store (run [op_join 0; op_set_topic 0 "news"] st1) !! r1 ∧
    r2 ≠ r1 ∧ (r2 ∉ _rooms st2) ∧
    store st2 !! r2
    = Some (TextRoom.fresh (run [op_join 0; op_set_topic 0 "news"] st1) r2 "A") ∧
    _joined (TextRoom.fresh (run [op_join 0; op_set_topic 0 "news"] st1) r2 "A") = false ∧
    _topic (TextRoom.fresh (run [op_join 0; op_set_topic 0 "news"] st1) r2 "A") = "" ∧
    registry_ok st2.
Proof.
  assert (H : registry_ok session0).
  { split; [apply Forall_nil_2 | apply NoDup_nil_2]. }
  split; [exact H |].
  exact (query_room_twice_equal_rooms "A" [op_join 0; op_set_topic 0 "news"] session0 H).
Defined.

(** C3: however a session proceeds from a state whose registry has no two
    entries of one name (the empty registry of a new backend, for one),
    through any sequence of [query_room], [build_identifier], the start of
    [serve_forever], the methods of rooms and the commands of the plugin,
    the registry only grows at its end: at every point of the sequence it
    extends what it was at any earlier point, so no entry is ever removed;
    and it never holds two entries with the same name. *)
Theorem registry_append_only_no_duplicates ops st :
  registry_ok st →
  (∀ ops1 ops2, ops = ops1 ++ ops2 →
     _rooms (run ops1 st) `prefix_of` _rooms (run ops st)) ∧
  (∀ i j ri rj,
     _rooms (run ops st) !! i = Some ri → _rooms (run ops st) !! j = Some rj →
     is_Some (room_name (run ops st) ri) ∧
     (room_name (run ops st) ri = room_name (run ops st) rj → i = j)).
Proof.
  intros Hok. split.
  - intros ops1 ops2 ->. rewrite run_app. apply run_registry.
  - destruct (run_registry ops st) as (_ & _ & Hok'). destruct (Hok' Hok) as [Hal Hnd].
    intros i j ri rj Hi Hj. split.
    + apply room_name_allocated.
      unfold rooms_allocated in Hal. rewrite Forall_forall in Hal.
      apply Hal. by eapply list_elem_of_lookup_2.
    + intros Hn. apply (NoDup_lookup _ i j (room_name (run ops st) ri) Hnd).
      * unfold registry_names. by rewrite list_lookup_fmap, Hi.
      * unfold registry_names. by rewrite list_lookup_fmap, Hj, Hn.
Qed.

Lemma registry_append_only_no_duplicates_witness :
  let ops := [op_query_room "#A"; op_join 0; op_startup; op_build_identifier "##A";
              op_query_room "#B"; op_asuser "carol"; op_inroom] in
  registry_ok session0 ∧
  _rooms (run ops session0) = [0; 2] ∧
  registry_names (run ops session0) = [Some "A"; Some "B"] ∧
  (∀ ops1 ops2, ops = ops1 ++ ops2 →
     _rooms (run ops1 session0) `prefix_of` _rooms (run ops session0)).
Proof.
  assert (H : registry_ok session0).
  { split; [apply Forall_nil_2 | apply NoDup_nil_2]. }
  split_and!; [exact H | reflexivity | reflexivity |].
  apply (registry_append_only_no_duplicates _ session0 H).
Defined.

(** C8: on a room object, [join] and [create] set the joined flag,
    [leave] and [destroy] clear it; the object keeps its name, topic and
    occupants, every other object and the rest of the backend, registry
    included, stay as they are.  No operation of a session removes a room
    from the registry. *)
Theorem room_methods_toggle_joined r o st :
  store st !! r = Some o →
  let toggled b :=
    set_store (<[r := mkTextRoom (_topic o) b (name o) (_occupants o)]> (store st)) st in
  TextRoom.join r st = (Ok tt, toggled true) ∧
  TextRoom.create r st = (Ok tt, toggled true) ∧
  TextRoom.leave r st = (Ok tt, toggled false) ∧
  TextRoom.destroy r st = (Ok tt, toggled false) ∧
  (∀ b, _rooms (toggled b) = _rooms st ∧
        ∀ r', r' ≠ r → store (toggled b) !! r' = store st !! r') ∧
  (∀ ops r', r' ∈ _rooms st → r' ∈ _rooms (run ops st)).
Proof.
  intros Ho toggled. split_and!.
  - exact (update_room_Some r (TextRoom.set_joined true) st o Ho).
  - exact (update_room_Some r (TextRoom.set_joined true) st o Ho).
  - exact (update_room_Some r (TextRoom.set_joined false) st o Ho).
  - exact (update_room_Some r (TextRoom.set_joined false) st o Ho).
  - intros b. split; [done|]. intros r' Hne. cbn. by apply list_lookup_insert_ne.
  - intros ops r' Hr'. destruct (run_registry ops st) as ([k ->] & _ & _).
    apply elem_of_app. by left.
Qed.

Lemma room_methods_toggle_joined_witness :
  let st := run [op_query_room "#A"] session0 in
  TextRoom.join 0 st
  = (Ok tt, set_store [mkTextRoom "" true "A" (_occupants (TextRoom.fresh session0 0 "A"))] st).
Proof.
  apply (room_methods_toggle_joined 0 (TextRoom.fresh session0 0 "A")
           (run [op_query_room "#A"] session0)).
  reflexivity.
Defined.

(** ** Events *)

Lemma io_post_bind {A B} P (Q : A → Prop) (Q' : B → Prop) (m : IO A) (f : A → IO B) :
  io_post P Q m → (∀ a, Q a → io_post P Q' (f a)) → io_post P Q' (m ≫= f).
Proof.
  intros Hm Hf st. destruct (Hm st) as [Htr Hq].
  unfold mbind, IO_bind. destruct (m st) as [[[a|e] st1] tr]; cbn in *.
  - destruct (Hf a (Hq a eq_refl) st1) as [Htr' Hq'].
    destruct (f a st1) as [[o st2] tr']. cbn in *.
    split; [by apply Forall_app | done].
  - split; [done | by intros].
Qed.

Lemma io_post_ret {A} P (Q : A → Prop) a : Q a → io_post P Q (mret a).
Proof. intros Ha st. split; [constructor | by intros ? [= <-]]. Qed.

Lemma io_post_emit P e : P e → io_post P (λ _, True) (emit e).
Proof. intros He st. split; [by apply Forall_singleton | done]. Qed.

Lemma io_post_liftM {A} P (Q : A → Prop) (m : M A) :
  (∀ st a, (m st).1 = Ok a → Q a) → io_post P Q (liftM m).
Proof.
  intros Hm st. unfold liftM. specialize (Hm st).
  destruct (m st) as [o st1]. split; [constructor | apply Hm].
Qed.

Lemma io_post_liftM_any {A} P (m : M A) : io_post P (λ _, True) (liftM m).
Proof. by apply io_post_liftM. Qed.

(** *** The mention scan *)

Section PatternShape.
Context (isalnum : N → bool).

(** An ASCII byte starts a character of the class only as a letter, a
    digit, the underscore or the apostrophe, and then it is the whole
    character. *)
Lemma in_class_ascii b t :
  (N_of_ascii b <? 128)%N = true →
  in_class isalnum (String b t) = true →
  t = "" ∧ (is_word isalnum (N_of_ascii b) || (N_of_ascii b =? 39)%N) = true.
Proof.
  intros Hb. unfold in_class, code_point.
  destruct t as [|b1 [|b2 [|b3 [|]]]]; try done.
  - by rewrite Hb.
  - assert (H : (194 <=? N_of_ascii b)%N = false).
    { apply N.ltb_lt in Hb. apply N.leb_gt. lia. }
    by rewrite H.
  - assert (H : (224 <=? N_of_ascii b)%N = false).
    { apply N.ltb_lt in Hb. apply N.leb_gt. lia. }
    by rewrite H.
  - assert (H : (240 <=? N_of_ascii b)%N = false).
    { apply N.ltb_lt in Hb. apply N.leb_gt. lia. }
    by rewrite H.
Qed.

Lemma in_class_not_prefix ch :
  in_class isalnum ch = true →
  ∃ c t, ch = String c t ∧ Ascii.eqb c "#" = false ∧ Ascii.eqb c "@" = false.
Proof.
  intros Hc. destruct ch as [|c t]; [done|]. exists c, t. split; [done|].
  split; apply Ascii.eqb_neq; intros ->.
  - by destruct (in_class_ascii "#" t eq_refl Hc) as [_ ?].
  - by destruct (in_class_ascii "@" t eq_refl Hc) as [_ ?].
Qed.

Lemma take_class_in_class chs :
  Forall (λ ch, in_class isalnum ch = true) (take_class isalnum chs).
Proof.
  induction chs as [|ch chs IH]; [constructor|]. cbn.
  destruct (in_class isalnum ch) eqn:Hc; [|constructor]. by constructor.
Qed.

(** Every word the pattern finds is an [@] followed by the characters of a
    run of the class that is not empty. *)
Lemma findall_chars_runs chs :
  Forall (λ w, ∃ run, w = String "@" (join run) ∧ run ≠ [] ∧
                      Forall (λ ch, in_class isalnum ch = true) run)
         (findall_chars isalnum chs).
Proof.
  induction chs as [|ch rest IH]; [constructor|]. cbn [findall_chars].
  destruct (String.eqb ch "@"); [|done].
  pose proof (take_class_in_class rest) as Hrun.
  destruct (take_class isalnum rest) as [|c' run]; [done|].
  constructor; [|done]. by exists (c' :: run).
Qed.

(** After its [@] a word goes on with a byte that is neither [#] nor
    [@]. *)
Lemma findall_mention_shape entry :
  Forall (λ w, ∃ c run, w = String "@" (String c run) ∧
                        Ascii.eqb c "#" = false ∧ Ascii.eqb c "@" = false)
         (findall_mention isalnum entry).
Proof.
  eapply Forall_impl; [apply findall_chars_runs|]. cbn.
  intros w (run & -> & Hne & Hrun). destruct run as [|ch run]; [done|].
  apply Forall_cons in Hrun as [Hch _].
  destruct (in_class_not_prefix ch Hch) as (c & t & -> & Hh & Ha).
  exists c, (t +:+ join run). by rewrite <- append_cons.
Qed.

End PatternShape.

(** Building the list of mentioned identities fails at the first word:
    without its [@] the word has no prefix that [build_identifier]
    accepts. *)
Lemma build_mentioned_raises w ws st :
  (∃ c run, w = String "@" (String c run) ∧
            Ascii.eqb c "#" = false ∧ Ascii.eqb c "@" = false) →
  build_mentioned (w :: ws) st = (Raise InvalidIdentifier, st).
Proof.
  intros (c & run & -> & Hh & Ha).
  cbn [build_mentioned startswith slice1]. cbn [Ascii.eqb Bool.eqb].
  unfold mbind, M_bind, build_identifier. cbn [startswith].
  by rewrite Hh, Ha.
Qed.

Lemma build_mentioned_findall isalnum entry st :
  build_mentioned (findall_mention isalnum entry) st
  = (match findall_mention isalnum entry with
     | [] => Ok []
     | _ => Raise InvalidIdentifier
     end, st).
Proof.
  pose proof (findall_mention_shape isalnum entry) as Hsh.
  destruct (findall_mention isalnum entry) as [|w ws]; [done|].
  apply build_mentioned_raises. by inversion Hsh.
Qed.

Section LoopEvents.
Context (ANSI : bool) (fg_red fg_green fg_cyan fx_reset : string).
Context (on_message : Message → M unit) (on_mention : Message → list pyval → M unit).
Context (isalnum : N → bool).
Context (P : event → Prop).
Hypothesis P_input : ∀ p, P (input p).
Hypothesis P_message : ∀ m, P (callback_message m).
Hypothesis P_sleep : P sleep.
Hypothesis P_mention : ∀ entry st l m,
  (build_mentioned (findall_mention isalnum entry) st).1 = Ok l → l ≠ [] →
  P (callback_mention m l).

Lemma handle_entry_events frm to entry :
  io_post P (λ _, True) (handle_entry on_message on_mention isalnum frm to entry).
Proof.
  unfold handle_entry.
  eapply io_post_bind; [apply io_post_emit, P_message | intros _ _].
  eapply io_post_bind; [apply io_post_liftM_any | intros _ _].
  eapply (io_post_bind _
            (λ l, ∃ st, (build_mentioned (findall_mention isalnum entry) st).1 = Ok l)).
  { apply io_post_liftM. eauto. }
  intros [|i others] [st Hl]; [by apply io_post_ret|].
  eapply io_post_bind; [| intros _ _; apply io_post_liftM_any].
  apply io_post_emit. by eapply P_mention.
Qed.

Lemma loop_events stdin :
  io_post P (λ _, True)
    (loop ANSI fg_red fg_green fg_cyan fx_reset on_message on_mention isalnum stdin).
Proof.
  induction stdin as [|[entry| |entry] rest IH]; cbn [loop];
    (eapply io_post_bind; [apply io_post_liftM_any | intros ft _]);
    (eapply io_post_bind; [apply io_post_liftM_any | intros p _]);
    (eapply io_post_bind; [apply io_post_emit, P_input | intros _ _]);
    try apply io_post_liftM_any;
    (eapply io_post_bind; [apply handle_entry_events | intros _ _]);
    (eapply io_post_bind; [apply io_post_emit, P_sleep | intros _ _]);
    [apply IH | apply io_post_liftM_any].
Qed.

End LoopEvents.

(** ** [serve_forever] *)

Lemma startup_ok st : ∃ st1, startup st = (Ok tt, st1, startup_events st).
Proof.
  destruct (_rooms st) as [|r rs] eqn:Hrs.
  - exists (with_testroom st). by apply startup_empty.
  - exists st. apply startup_nonempty. by rewrite Hrs.
Qed.

Lemma startup_events_no_cleanup st :
  Forall (λ e, is_cleanup e = false) (startup_events st).
Proof. unfold startup_events. destruct (demo_mode st); by repeat constructor. Qed.

Lemma startup_events_no_mention st :
  Forall (λ e, is_mention e = false) (startup_events st).
Proof. unfold startup_events. destruct (demo_mode st); by repeat constructor. Qed.

Lemma try_pass_trace body st : (try_pass body st).2 = (body st).2.
Proof.
  unfold try_pass. by destruct (body st) as [[[?|[]] ?] ?].
Qed.

Lemma always_raises_bind {A B} (m : IO A) (f : A → IO B) :
  (∀ a, always_raises (f a)) → always_raises (m ≫= f).
Proof.
  intros Hf st. unfold mbind, IO_bind.
  destruct (m st) as [[[a|e] st1] tr]; cbn; [|eauto].
  destruct (Hf a st1) as [e He]. destruct (f a st1) as [[o st2] tr']. eauto.
Qed.

Lemma always_raises_raise {A} e : always_raises (liftM (raise (A := A) e)).
Proof. intros st. by exists e. Qed.

Section ServeForever.
Context (ANSI : bool) (fg_red fg_green fg_cyan fx_reset : string).
Context (on_message : Message → M unit) (on_mention : Message → list pyval → M unit).
Context (isalnum : N → bool).

Local Abbreviation the_loop :=
  (loop ANSI fg_red fg_green fg_cyan fx_reset on_message on_mention isalnum).
Local Abbreviation the_session :=
  (serve_forever ANSI fg_red fg_green fg_cyan fx_reset on_message on_mention isalnum).

(** The trace of a session: the start, the loop, the cleanup. *)
Lemma serve_forever_parts stdin st :
  ∃ st1 o st',
    startup st = (Ok tt, st1, startup_events st) ∧
    (try_pass (the_loop stdin) st1).1 = (o, st') ∧
    the_session stdin st
    = (o, st',
       (startup_events st ++ (the_loop stdin st1).2)
       ++ [callback_presence (user st') OFFLINE; disconnect_callback; shutdown]).
Proof.
  destruct (startup_ok st) as [st1 Hst1].
  destruct (try_pass (the_loop stdin) st1) as [[o st'] tr] eqn:Hloop.
  exists st1, o, st'. split_and!; [done | by rewrite Hloop |].
  unfold serve_forever. unfold mbind at 1. unfold IO_bind. rewrite Hst1.
  unfold try_finally. rewrite Hloop.
  pose proof (try_pass_trace (the_loop stdin) st1) as Htr. rewrite Hloop in Htr.
  cbn in Htr. subst tr.
  unfold cleanup. unfold_IO. cbn. by rewrite <- !app_assoc.
Qed.

(** In a session whose user and bot are persons and that has a room, a
    turn of the loop computes sender, recipient and prompt without
    failing and without changing the backend. *)
Lemma turn_starts st :
  session_wf st →
  ∃ ft p, sender_and_recipient st = (Ok ft, st) ∧
          prompt ANSI fg_red fg_green fg_cyan fx_reset ft.1 ft.2 st = (Ok p, st).
Proof.
  intros ([u Hu] & [b Hb] & Hal & Hne).
  destruct (_rooms st) as [|r0 rs] eqn:Hrs; [done|].
  assert (Hr0 : ∃ o, store st !! r0 = Some o).
  { unfold rooms_allocated in Hal. rewrite Hrs in Hal.
    apply Forall_cons in Hal as [Hlt _]. by apply lookup_lt_is_Some_2. }
  destruct Hr0 as [o Ho].
  unfold sender_and_recipient, prompt, rooms. unfold_M. cbn.
  destruct (_inroom st), (ANSI || demo_mode st); cbn; rewrite ?Hrs, ?Hu, ?Hb;
    eexists _, _; (split; [reflexivity|]); cbn;
    unfold TextRoom.__str__, deref; rewrite ?Ho, ?Hu, ?Hb; cbn; reflexivity.
Qed.

Lemma bind_trace {A B} (m : IO A) (f : A → IO B) st a st1 tr :
  m st = (Ok a, st1, tr) → ((m ≫= f) st).2 = tr ++ (f a st1).2.
Proof.
  intros Hm. unfold mbind, IO_bind. rewrite Hm. by destruct (f a st1) as [[o st2] tr'].
Qed.

Lemma liftM_Ok {A} (m : M A) st a st1 :
  m st = (Ok a, st1) → liftM m st = (Ok a, st1, []).
Proof. intros Hm. unfold liftM. by rewrite Hm. Qed.

(** The first thing a turn does to the outside is to read the console,
    with the prompt of the state it starts in. *)
Lemma loop_first_input stdin st ft p :
  sender_and_recipient st = (Ok ft, st) →
  prompt ANSI fg_red fg_green fg_cyan fx_reset ft.1 ft.2 st = (Ok p, st) →
  ∃ rest, (the_loop stdin st).2 = input p :: rest.
Proof.
  intros Hs Hp.
  destruct stdin as [|[entry| |entry] rest']; cbn [loop];
    rewrite (bind_trace _ _ _ _ _ _ (liftM_Ok _ _ _ _ Hs)),
            (bind_trace _ _ _ _ _ _ (liftM_Ok _ _ _ _ Hp)),
            (bind_trace _ _ st tt st [input p] eq_refl); cbn [app]; eauto.
Qed.

(** The loop is left by an exception only. *)
Lemma loop_raises stdin : always_raises (the_loop stdin).
Proof.
  induction stdin as [|[entry| |entry] rest IH]; cbn [loop];
    do 3 (apply always_raises_bind; intros ?); try apply always_raises_raise;
    do 2 (apply always_raises_bind; intros ?); [apply IH | apply always_raises_raise].
Qed.

End ServeForever.

(** C4: however the session loop is left ([EOFError] at the end of input,
    [KeyboardInterrupt], or any other exception, such as one raised by the
    handler of inbound messages or by the loop's own statements), the
    events of [serve_forever] end with the offline presence of the current
    user, the disconnect hook and the shutdown hook, in this order, and
    none of the three occurs earlier in the session.  End of input and
    interrupt end the session normally; any other exception is raised
    again after the three. *)
Theorem serve_forever_cleanup ANSI fg_red fg_green fg_cyan fx_reset
    on_message on_mention isalnum stdin st :
  ∃ o st' before,
    serve_forever ANSI fg_red fg_green fg_cyan fx_reset on_message on_mention isalnum
      stdin st
    = (o, st',
       before ++ [callback_presence (user st') OFFLINE; disconnect_callback; shutdown]) ∧
    Forall (λ e, is_cleanup e = false) before ∧
    (o = Ok tt ∨ ∃ e, o = Raise e ∧ e ≠ EOFError ∧ e ≠ KeyboardInterrupt).
Proof.
  destruct (serve_forever_parts ANSI fg_red fg_green fg_cyan fx_reset
              on_message on_mention isalnum stdin st)
    as (st1 & o & st' & Hst1 & Hloop & ->).
  eexists o, st', _. split_and!; [reflexivity | |].
  - apply Forall_app. split; [apply startup_events_no_cleanup|].
    by apply loop_events.
  - destruct (loop_raises ANSI fg_red fg_green fg_cyan fx_reset
                on_message on_mention isalnum stdin st1) as [e He].
    unfold try_pass in Hloop.
    destruct (loop _ _ _ _ _ _ _ _ stdin st1) as [[o1 st2] tr]. cbn in He. subst o1.
    destruct e; cbn in Hloop; injection Hloop as <- <-; eauto 6.
Qed.

(** C5: [serve_forever] first runs its start, whose events contain no
    console read, and then the loop, from the state the start leaves.
    When the registry was empty this state has exactly one registered
    room, a new object named [testroom] that is joined, and differs from
    the initial state in nothing else; when the registry was not empty it
    is the initial state, no room is made.  With a user and a bot that are
    persons the first event of the loop is the console read, with the
    prompt computed in this state; computing sender, recipient and prompt
    changes no state. *)
Theorem startup_testroom ANSI fg_red fg_green fg_cyan fx_reset
    on_message on_mention isalnum stdin st :
  ∃ st1 o st',
    serve_forever ANSI fg_red fg_green fg_cyan fx_reset on_message on_mention isalnum
      stdin st
    = (o, st',
       (startup_events st
        ++ (loop ANSI fg_red fg_green fg_cyan fx_reset on_message on_mention isalnum
              stdin st1).2)
       ++ [callback_presence (user st') OFFLINE; disconnect_callback; shutdown]) ∧
    startup st = (Ok tt, st1, startup_events st) ∧
    Forall (λ e, is_input e = false) (startup_events st) ∧
    (_rooms st = [] →
     ∃ r room,
       _rooms st1 = [r] ∧ store st1 !! r = Some room ∧
       name room = "testroom" ∧ _joined room = true ∧
       store st1 = store st ++ [room] ∧ same_attributes st st1) ∧
    (_rooms st ≠ [] → st1 = st) ∧
    (is_person (user st) → is_person (bot_identifier st) → rooms_allocated st →
     ∃ ft p rest,
       sender_and_recipient st1 = (Ok ft, st1) ∧
       prompt ANSI fg_red fg_green fg_cyan fx_reset ft.1 ft.2 st1 = (Ok p, st1) ∧
       (loop ANSI fg_red fg_green fg_cyan fx_reset on_message on_mention isalnum
          stdin st1).2 = input p :: rest) ∧
    (∀ s, (sender_and_recipient s).2 = s ∧
          ∀ f t, (prompt ANSI fg_red fg_green fg_cyan fx_reset f t s).2 = s).
Proof.
  destruct (serve_forever_parts ANSI fg_red fg_green fg_cyan fx_reset
              on_message on_mention isalnum stdin st)
    as (st1 & o & st' & Hst1 & Hloop & Hsf).
  exists st1, o, st'. split_and!; [done | done | | | | |].
  - unfold startup_events. destruct (demo_mode st); by repeat constructor.
  - intros Hrs. rewrite startup_empty in Hst1 by done. injection Hst1 as <-.
    exists (length (store st)),
      (TextRoom.set_joined true (TextRoom.fresh st (length (store st)) "testroom")).
    split_and!; try reflexivity; [|done].
    unfold with_testroom. cbn [store set_store]. by apply list_lookup_middle.
  - intros Hrs. rewrite startup_nonempty in Hst1 by done. by injection Hst1 as <-.
  - intros Hu Hb Hal.
    assert (Hwf1 : session_wf st1).
    { destruct (_rooms st) as [|r rs] eqn:Hrs.
      - rewrite startup_empty in Hst1 by done. injection Hst1 as <-.
        split_and!; [done | done | | done].
        apply Forall_singleton. cbn. rewrite length_app. cbn. lia.
      - rewrite startup_nonempty in Hst1 by (by rewrite Hrs). injection Hst1 as <-.
        split_and!; [done | done | done | by rewrite Hrs]. }
    destruct (turn_starts ANSI fg_red fg_green fg_cyan fx_reset st1 Hwf1)
      as (ft & p & Hs & Hp).
    destruct (loop_first_input ANSI fg_red fg_green fg_cyan fx_reset
                on_message on_mention isalnum stdin st1 ft p Hs Hp) as [rest Hrest].
    by exists ft, p, rest.
  - intros s. split.
    + unfold sender_and_recipient, rooms. unfold_M.
      destruct (_inroom s); [|done]. by destruct (_rooms s).
    + intros f t. unfold prompt. unfold_M. cbn.
      destruct (ANSI || demo_mode s).
      * destruct (attr_person (user s)) as [up|]; [|done].
        destruct (in_str up _); [|done].
        destruct (py_str _ f); [|done]. by destruct (py_str _ t).
      * destruct (py_str _ f); [|done]. by destruct (py_str _ t).
Qed.

(** In a session whose mode was switched to the room before the start,
    the first prompt shows the new room. *)
Lemma startup_testroom_witness :
  ∃ o st' rest,
    serve_forever false "" "" "" "" accepting_handler ignore_mention isalnum_latin1
      [Line "hello"] (set_inroom true session0)
    = (o, st',
       [inject_commands_from "TextPlugin"; connect_callback;
        callback_presence (VPerson (TextPerson.__init__ "admin")) ONLINE;
        input (newline +:+ "[#testroom/admin ➡ #testroom] >>> ")] ++ rest).
Proof.
  destruct (startup_testroom false "" "" "" "" accepting_handler ignore_mention
              isalnum_latin1 [Line "hello"] (set_inroom true session0))
    as (st1 & o & st' & Hsf & Hst1 & _ & _ & _ & Hfirst & _).
  destruct Hfirst as (ft & p & rest & Hs & Hp & Hrest);
    [by eexists | by eexists | constructor |].
  rewrite Hsf, Hrest.
  vm_compute in Hst1. injection Hst1 as <-.
  vm_compute in Hs. injection Hs as <-.
  vm_compute in Hp. injection Hp as <-.
  eexists o, st', _. reflexivity.
Defined.

(** An exception of the message handler leaves the loop and comes out of
    [serve_forever], after the three events of the cleanup. *)
Lemma serve_forever_handler_exception :
  let '(o, st, tr) :=
    serve_forever false "" "" "" "" failing_handler ignore_mention isalnum_latin1
      [Line "!help"; Line "never read"] session0 in
  o = Raise (Exception "boom") ∧
  ∃ msg p,
    tr = [inject_commands_from "TextPlugin"; connect_callback;
          callback_presence (user session0) ONLINE;
          input p; callback_message msg;
          callback_presence (user session0) OFFLINE; disconnect_callback; shutdown].
Proof. vm_compute. split; [reflexivity | by eexists _, _]. Qed.

(** C6, on the code: the pattern finds [@bob] and [@carol] in the line
    [hello @bob and @carol], but building the list of mentioned identities
    raises the [ValueError] of [build_identifier] at the first word, in
    every state, because the word is passed without its [@]; and for every
    input, every behaviour of the handlers and every table of the
    alphanumeric characters the trace of [serve_forever] contains no call
    of the mention handler. *)
Theorem mention_scan_raises :
  (∀ isalnum, findall_mention isalnum "hello @bob and @carol" = ["@bob"; "@carol"]) ∧
  (∀ isalnum st,
     build_mentioned (findall_mention isalnum "hello @bob and @carol") st
     = (Raise InvalidIdentifier, st)) ∧
  (∀ ANSI fg_red fg_green fg_cyan fx_reset on_message on_mention isalnum stdin st,
     Forall (λ e, is_mention e = false)
       (serve_forever ANSI fg_red fg_green fg_cyan fx_reset
          on_message on_mention isalnum stdin st).2).
Proof.
  split_and!; [reflexivity | by intros isalnum st; rewrite build_mentioned_findall |].
  intros ANSI r g c x on_message on_mention isalnum stdin st.
  destruct (serve_forever_parts ANSI r g c x on_message on_mention isalnum stdin st)
    as (st1 & o & st' & Hst1 & Hloop & ->).
  cbn [snd]. repeat apply Forall_app_2.
  - apply startup_events_no_mention.
  - apply loop_events; try done.
    intros entry st2 l m Hl Hne. rewrite build_mentioned_findall in Hl.
    cbn in Hl. destruct (findall_mention isalnum entry); [|done]. by injection Hl as <-.
  - by repeat constructor.
Qed.

(** The line [hello @bob and @carol] ends the session with the
    [ValueError]; the handler of mentions is not called. *)
Lemma serve_forever_mention_line :
  let '(o, st, tr) :=
    serve_forever false "" "" "" "" accepting_handler ignore_mention isalnum_latin1
      [Line "hello @bob and @carol"; Line "never read"] session0 in
  o = Raise InvalidIdentifier ∧
  ∃ msg p,
    tr = [inject_commands_from "TextPlugin"; connect_callback;
          callback_presence (user session0) ONLINE;
          input p; callback_message msg;
          callback_presence (user session0) OFFLINE; disconnect_callback; shutdown].
Proof. vm_compute. split; [reflexivity | by eexists _, _]. Qed.

(** ** Equality and hashing of identities *)

Lemma room_eq_names h ra rb :
  TextRoom.__eq__ h ra (VRoom rb) = Ok true ↔
  ∃ oa ob, h !! ra = Some oa ∧ h !! rb = Some ob ∧ name oa = name ob.
Proof.
  unfold TextRoom.__eq__, deref.
  destruct (h !! ra) as [oa|], (h !! rb) as [ob|]; split;
    try (by intros [=]); try (by intros (? & ? & [=] & _)); try (by intros (? & ? & _ & [=] & _)).
  - intros [= Heq%String.eqb_eq]. by exists oa, ob.
  - intros (? & ? & [= <-] & [= <-] & Heq%String.eqb_eq). by rewrite Heq.
Qed.

(** C9: two persons are equal exactly when their identifier strings are,
    whatever their client tag, nickname and full name; the hash of a person
    is the hash of its identifier string, so equal persons have equal
    hashes; two occupants are equal exactly when their persons are equal
    and their rooms are equal, that is, have the same name. *)
Theorem identity_equality (str_hash : string → Z) h p q a ra b rb :
  py_eq h (VPerson p) (VPerson q) = TextPerson.__eq__ p (VPerson q) ∧
  (TextPerson.__eq__ p (VPerson q) = Ok true ↔ TextPerson.person p = TextPerson.person q) ∧
  (TextPerson.__eq__ p (VPerson q) = Ok false ↔ TextPerson.person p ≠ TextPerson.person q) ∧
  TextPerson_hash str_hash p = str_hash (TextPerson.person p) ∧
  (TextPerson.__eq__ p (VPerson q) = Ok true →
   TextPerson_hash str_hash p = TextPerson_hash str_hash q) ∧
  (py_eq h (VOccupant a ra) (VOccupant b rb) = Ok true ↔
   py_eq h a b = Ok true ∧ TextRoom.__eq__ h ra (VRoom rb) = Ok true) ∧
  (TextRoom.__eq__ h ra (VRoom rb) = Ok true ↔
   ∃ oa ob, h !! ra = Some oa ∧ h !! rb = Some ob ∧ name oa = name ob).
Proof.
  split_and!.
  - reflexivity.
  - cbn. split; [by intros [= ?%String.eqb_eq] | by intros ->%String.eqb_eq].
  - cbn. split; [by intros [= ?%String.eqb_neq] | by intros ->%String.eqb_neq].
  - reflexivity.
  - cbn. intros [= Heq%String.eqb_eq]. unfold TextPerson_hash. by rewrite Heq.
  - cbn [py_eq]. unfold TextOccupant.__eq__. cbn [attr_person attr_room].
    destruct (py_eq h a b) as [[]|]; split; try done.
    + by intros [_ ?].
    + by intros [[=] _].
    + by intros [[=] _].
  - apply room_eq_names.
Qed.

(** Persons that differ in everything but the identifier are equal, and
    a person is not equal to one with another identifier. *)
Lemma identity_equality_example :
  TextPerson.__eq__ (mkTextPerson "bob" (Some "irc") (Some "bobby") None)
                    (VPerson (mkTextPerson "bob" None None (Some "Bob B."))) = Ok true ∧
  TextPerson.__eq__ (TextPerson.__init__ "bob") (VPerson (TextPerson.__init__ "carol")) = Ok false.
Proof. split; reflexivity. Qed.

(** ** Reactions *)

(** C10: adding the reaction [R] to a message sends exactly one message:
    to the sender of the original, with the text [reaction +:R:], in reply
    to the original; removing it sends [reaction -:R:] in the same way.
    The backend stays as it is. *)
Theorem reactions_send_one_reply msg reaction st :
  add_reaction msg reaction st
  = (Ok tt, st, [send (frm msg) ("reaction +:" +:+ reaction +:+ ":") (Some msg)]) ∧
  remove_reaction msg reaction st
  = (Ok tt, st, [send (frm msg) ("reaction -:" +:+ reaction +:+ ":") (Some msg)]).
Proof. split; reflexivity. Qed.

(** ** Room tokens *)

(** [build_identifier] hands [query_room] the token without its [#], and
    [query_room] wants a [#] first: a room token [#A] resolves only when
    [A] itself starts with [#]; otherwise it raises, and the backend stays
    as it is. *)
Theorem build_identifier_room_token A st :
  contains "/" A = false →
  build_identifier (String "#" A) st = 
  match A with
  | EmptyString => (Raise IndexError, st)
  | String c B =>
      if Ascii.eqb c "#" then
        let '(o, st') := query_room A st in
        (match o with Ok r => Ok (VRoom r) | Raise e => Raise e end, st')
      else (Raise InvalidRoomName, st)
  end.
Proof.
  intros Hs. unfold build_identifier. cbn [startswith slice1 contains Ascii.eqb Bool.eqb].
  rewrite Hs. cbn [orb]. unfold mbind, M_bind.
  destruct A as [|c B]; [done|].
  destruct (Ascii.eqb c "#") eqn:Hc.
  - by destruct (query_room (String c B) st) as [[r|e] st'].
  - unfold query_room. by rewrite Hc.
Qed.

Lemma build_identifier_room_token_witness :
  build_identifier "#testroom" session0 = (Raise InvalidRoomName, session0).
Proof. apply (build_identifier_room_token "testroom" session0). reflexivity. Defined.

(** * Further properties *)

(** ** Printing and resolving identities *)

(** Round trip for persons: the printed form of a person resolves, in any
    state and without changing it, to a person with the same identifier,
    equal to the original under [==] (client, nickname and full name are
    not printed and come back unset); and a token that starts with [@]
    prints back as itself once resolved. *)
Theorem person_str_round_trip p t h st :
  build_identifier (TextPerson.__str__ p) st
  = (Ok (VPerson (TextPerson.__init__ (TextPerson.person p))), st) ∧
  py_eq h (VPerson p) (VPerson (TextPerson.__init__ (TextPerson.person p))) = Ok true ∧
  match build_identifier (String "@" t) st with
  | (Ok v, st') => py_str (store st') v = Ok (String "@" t) ∧ st' = st
  | (Raise _, _) => False
  end.
Proof.
  split_and!.
  - reflexivity.
  - cbn. by rewrite String.eqb_refl.
  - done.
Qed.

Lemma build_identifier_one_slash room person st :
  contains "/" room = false → contains "/" person = false →
  build_identifier ("#" +:+ room +:+ "/" +:+ person) st
  = (Ok (VOccupant (VPerson (TextPerson.__init__ person)) (length (store st))),
     set_store (store st ++ [TextRoom.fresh st (length (store st)) room]) st).
Proof.
  intros Hroom Hperson. unfold build_identifier.
  change ("#" +:+ room +:+ "/" +:+ person)
    with (String "#" (room +:+ String "/" person)).
  cbn [startswith slice1 contains Ascii.eqb].
  rewrite contains_app_sep, orb_true_r, split_one_sep by done.
  reflexivity.
Qed.

(** Round trip for occupants: an occupant of a room of the store, whose
    person is a [TextPerson], prints as [#room/person]; when neither name
    contains a slash, that text resolves to an occupant that is equal to
    the original under [==] and prints the same; the room of the new
    occupant is a new object and the registry is left alone. *)
Theorem occupant_str_round_trip p r o st :
  store st !! r = Some o →
  contains "/" (name o) = false → contains "/" (TextPerson.person p) = false →
  ∃ s v st',
    py_str (store st) (VOccupant (VPerson p) r) = Ok s ∧
    s = "#" +:+ name o +:+ "/" +:+ TextPerson.person p ∧
    build_identifier s st = (Ok v, st') ∧
    py_eq (store st') (VOccupant (VPerson p) r) v = Ok true ∧
    py_str (store st') v = Ok s ∧
    attr_room v = Ok (length (store st)) ∧ length (store st) ≠ r ∧
    _rooms st' = _rooms st.
Proof.
  intros Ho Hn Hp.
  pose proof (build_identifier_one_slash (name o) (TextPerson.person p) st Hn Hp) as Hb.
  eexists _, _, _. split_and!.
  - cbn [py_str]. unfold deref. rewrite Ho. reflexivity.
  - reflexivity.
  - exact Hb.
  - cbn [py_eq]. unfold TextOccupant.__eq__. cbn [attr_person attr_room py_eq TextPerson.__eq__].
    cbn [TextPerson.person TextPerson.__init__ _person]. rewrite String.eqb_refl.
    unfold TextRoom.__eq__, deref. cbn [store set_store].
    rewrite lookup_app_l by (by eapply lookup_lt_Some).
    rewrite Ho, list_lookup_middle by done. cbn. by rewrite String.eqb_refl.
  - cbn [py_str]. unfold deref. cbn [store set_store].
    rewrite list_lookup_middle by done. reflexivity.
  - reflexivity.
  - apply lookup_lt_Some in Ho. lia.
  - reflexivity.
Qed.

Lemma occupant_str_round_trip_witness :
  let st := run [op_query_room "#lobby"] session0 in
  ∃ s v st',
    py_str (store st) (VOccupant (VPerson (TextPerson.__init__ "bob")) 0) = Ok s ∧
    s = "#lobby/bob" ∧
    build_identifier s st = (Ok v, st') ∧
    py_eq (store st') (VOccupant (VPerson (TextPerson.__init__ "bob")) 0) v = Ok true ∧
    py_str (store st') v = Ok s ∧
    attr_room v = Ok 1 ∧ 1 ≠ 0 ∧
    _rooms st' = _rooms st.
Proof.
  apply (occupant_str_round_trip (TextPerson.__init__ "bob") 0
           (TextRoom.fresh session0 0 "lobby")
           (run [op_query_room "#lobby"] session0)); reflexivity.
Defined.

(** ** [query_room]: outcomes, and the round trip with [str] *)

(** [query_room] succeeds exactly on the names that start with [#]: the
    empty name raises [IndexError], any other first character the
    [ValueError] on room names, both without touching the backend; a name
    [#A] always returns a new room named [A]. *)
Theorem query_room_outcome room st :
  rooms_allocated st →
  match room with
  | EmptyString => query_room room st = (Raise IndexError, st)
  | String c A =>
      if Ascii.eqb c "#" then
        ∃ st', query_room room st = (Ok (length (store st)), st') ∧
               room_name st' (length (store st)) = Some A ∧
               Some A ∈ registry_names st' ∧
               _joined <$> store st' !! length (store st) = Some false
      else query_room room st = (Raise InvalidRoomName, st)
  end.
Proof.
  intros Hst. destruct room as [|c A]; [done|].
  destruct (Ascii.eqb_spec c "#") as [->|Hne].
  - exists (after_query_room A st). rewrite query_room_spec by done.
    split_and!; [done | | by apply after_query_room_registered |].
    + unfold room_name. rewrite after_query_room_store. by rewrite list_lookup_middle.
    + rewrite after_query_room_store. by rewrite list_lookup_middle.
  - unfold query_room. apply Ascii.eqb_neq in Hne. by rewrite Hne.
Qed.

Lemma query_room_outcome_witness :
  query_room "" session0 = (Raise IndexError, session0) ∧
  query_room "lobby" session0 = (Raise InvalidRoomName, session0) ∧
  ∃ st', query_room "#lobby" session0 = (Ok 0, st') ∧
         room_name st' 0 = Some "lobby" ∧
         Some "lobby" ∈ registry_names st' ∧
         _joined <$> store st' !! 0 = Some false.
Proof.
  assert (H : rooms_allocated session0) by apply Forall_nil_2.
  split_and!.
  - exact (query_room_outcome "" session0 H).
  - exact (query_room_outcome "lobby" session0 H).
  - exact (query_room_outcome "#lobby" session0 H).
Defined.

(** Round trip for rooms: the printed form of a registered room resolves
    through [query_room] to a room equal to it under [==], and the
    registry stays as it is; the room returned is nevertheless a new
    object. *)
Theorem room_str_round_trip r o st :
  rooms_allocated st → r ∈ _rooms st → store st !! r = Some o →
  ∃ s r' st',
    py_str (store st) (VRoom r) = Ok s ∧
    query_room s st = (Ok r', st') ∧
    py_eq (store st') (VRoom r) (VRoom r') = Ok true ∧
    py_str (store st') (VRoom r') = Ok s ∧
    _rooms st' = _rooms st ∧ r' ≠ r.
Proof.
  intros Hst Hr Ho.
  assert (Hin : Some (name o) ∈ registry_names st).
  { unfold registry_names. apply list_elem_of_fmap. exists r. split; [|done].
    unfold room_name. by rewrite Ho. }
  assert (Hlt : r < length (store st)) by (by eapply lookup_lt_Some).
  exists ("#" +:+ name o), (length (store st)), (after_query_room (name o) st).
  split_and!.
  - cbn. unfold TextRoom.__str__, deref. by rewrite Ho.
  - by apply query_room_spec.
  - cbn. unfold TextRoom.__eq__, deref. rewrite after_query_room_store.
    rewrite lookup_app_l, Ho, list_lookup_middle by done. cbn.
    by rewrite String.eqb_refl.
  - cbn. unfold TextRoom.__str__, deref. rewrite after_query_room_store.
    by rewrite list_lookup_middle.
  - by apply after_query_room_again.
  - lia.
Qed.

Lemma room_str_round_trip_witness :
  let st := run [op_query_room "#lobby"] session0 in
  ∃ s r' st',
    py_str (store st) (VRoom 0) = Ok s ∧
    query_room s st = (Ok r', st') ∧
    py_eq (store st') (VRoom 0) (VRoom r') = Ok true ∧
    py_str (store st') (VRoom r') = Ok s ∧
    _rooms st' = _rooms st ∧ r' ≠ 0.
Proof.
  apply (room_str_round_trip 0 (TextRoom.fresh session0 0 "lobby")
           (run [op_query_room "#lobby"] session0)).
  - vm_compute. repeat constructor.
  - vm_compute. left.
  - reflexivity.
Defined.

(** ** [==] and [__hash__] agree *)

Lemma room_hash_eq (str_hash : string → Z) h ra rb :
  TextRoom.__eq__ h ra (VRoom rb) = Ok true →
  TextRoom_hash str_hash h ra = TextRoom_hash str_hash h rb ∧
  (∃ z, TextRoom_hash str_hash h ra = Ok z) ∧
  TextRoom.__eq__ h rb (VRoom ra) = Ok true.
Proof.
  intros (oa & ob & Ha & Hb & Hn)%room_eq_names.
  unfold TextRoom_hash, TextRoom.__eq__, deref. rewrite Ha, Hb, Hn.
  split_and!; [done | by eexists | by rewrite String.eqb_refl].
Qed.

(** For all values the backend handles (strings, persons, occupants,
    rooms): when [a == b] answers [True], so does [b == a], and the two
    have the same hash, which is defined. *)
Theorem eq_symmetric_and_hash (str_hash : string → Z) h a b :
  py_eq h a b = Ok true →
  py_eq h b a = Ok true ∧
  py_hash str_hash h a = py_hash str_hash h b ∧
  ∃ z, py_hash str_hash h a = Ok z.
Proof.
  revert b. induction a as [s|p|pa IH ra|ra]; intros b Heq.
  - destruct b as [t| | |]; try done. cbn in *.
    injection Heq as Heq. apply String.eqb_eq in Heq as ->.
    rewrite String.eqb_refl. by eauto.
  - destruct b as [t|q|pb rb|rb]; try done.
    + cbn in *. injection Heq as Heq. apply String.eqb_eq in Heq.
      unfold TextPerson_hash. rewrite Heq, String.eqb_refl. by eauto.
    + cbn in Heq. by destruct (str_eq _ pb) as [[]|].
  - cbn [py_eq] in Heq. unfold TextOccupant.__eq__ in Heq.
    destruct b as [t|q|pb rb|rb]; try done.
    + cbn [attr_person attr_room] in Heq.
      by destruct (py_eq h pa (VStr (TextPerson.person q))) as [[]|].
    + cbn [attr_person attr_room] in Heq.
      destruct (py_eq h pa pb) as [[]|] eqn:Hp; try done.
      destruct (IH pb Hp) as (Hsym & Hh & z & Hz).
      destruct (room_hash_eq str_hash h ra rb Heq) as (Hrh & [z' Hz'] & Hrsym).
      split_and!.
      * cbn [py_eq]. unfold TextOccupant.__eq__. cbn [attr_person attr_room].
        by rewrite Hsym.
      * cbn [py_hash]. by rewrite <- Hh, <- Hrh.
      * cbn [py_hash]. rewrite Hz, Hz'. by eauto.
  - destruct b as [t|q|pb rb|rb]; try done. cbn [py_eq] in *.
    destruct (room_hash_eq str_hash h ra rb Heq) as (Hrh & Hz & Hrsym).
    done.
Qed.

Lemma eq_symmetric_and_hash_witness :
  let h := store (run [op_query_room "#lobby"; op_query_room "#lobby"] session0) in
  let a := VOccupant (VPerson (mkTextPerson "bob" (Some "irc") None None)) 0 in
  let b := VOccupant (VPerson (TextPerson.__init__ "bob")) 1 in
  py_eq h a b = Ok true ∧ py_eq h b a = Ok true ∧
  py_hash (λ s, Z.of_nat (String.length s)) h a
  = py_hash (λ s, Z.of_nat (String.length s)) h b.
Proof.
  split; [reflexivity|].
  refine (let H := eq_symmetric_and_hash _ _ _ _ _ in conj (proj1 H) (proj1 (proj2 H))).
  reflexivity.
Defined.

(** ** The commands of [TextPlugin] *)

(** [asuser] never fails: whatever its argument, the current user becomes
    a person, named by the argument without one leading [@] ([luser] for
    the empty argument; an argument such as [#room] names a person, not a
    room); nothing else of the backend changes, and the answer prints the
    new user. *)
Theorem asuser_outcome args st :
  let person :=
    match args with
    | EmptyString => "luser"
    | String c rest => if Ascii.eqb c "@" then rest else args
    end in
  TextPlugin.asuser args st
  = (Ok ("You are now: @" +:+ person),
     set_user (VPerson (TextPerson.__init__ person)) st).
Proof.
  destruct args as [|c rest]; [reflexivity|].
  cbn zeta. destruct (Ascii.eqb_spec c "@") as [->|Hne]; [reflexivity|].
  unfold TextPlugin.asuser. apply Ascii.eqb_neq in Hne. rewrite Hne. reflexivity.
Qed.

Lemma string_cons_ne c (s : string) : s ≠ String c s.
Proof.
  intros Heq. apply (f_equal String.length) in Heq. cbn in Heq. lia.
Qed.

(** [asadmin] resolves [BOT_ADMINS[0]]: with an administrator [@a] the
    current user becomes the person [a], and nothing else changes.  The
    rooms, however, list the administrator under the identifier [@a], with
    the prefix: as an occupant of a room the administrator is not equal to
    the administrator that room lists.  An administrator configured with
    neither prefix makes [asadmin] raise and leaves the user as it was. *)
Theorem asadmin_outcome a st :
  BOT_ADMINS_0 st = String "@" a →
  TextPlugin.asadmin st
  = (Ok ("You are now an admin: @" +:+ a), set_user (VPerson (TextPerson.__init__ a)) st) ∧
  ∀ r n,
    _occupants (TextRoom.fresh st r n) !! 1
    = Some (VOccupant (VPerson (TextPerson.__init__ (String "@" a))) r) ∧
    py_eq (store st) (VOccupant (VPerson (TextPerson.__init__ a)) r)
          (VOccupant (VPerson (TextPerson.__init__ (String "@" a))) r) = Ok false.
Proof.
  intros Ha. split.
  - unfold TextPlugin.asadmin. unfold_M. cbn. rewrite Ha. reflexivity.
  - intros r n. split; [cbn; by rewrite Ha|].
    cbn. by rewrite (proj2 (String.eqb_neq _ _) (string_cons_ne "@" a)).
Qed.

Lemma asadmin_outcome_witness :
  TextPlugin.asadmin session0
  = (Ok "You are now an admin: @admin",
     set_user (VPerson (TextPerson.__init__ "admin")) session0).
Proof. apply (asadmin_outcome "admin" session0). reflexivity. Defined.



(** The two modes.  [inperson] answers and makes the next message go from
    the user to the bot.  [inroom] makes it go from the user, as an
    occupant of the first registered room, to that room, and answers with
    the room's printed form; with an empty registry [inroom] raises
    [IndexError] after it has switched the mode, so that computing the
    next sender raises [IndexError] as well. *)
Theorem mode_commands st :
  TextPlugin.inperson st = (Ok "Now in one-on-one with the bot.", set_inroom false st) ∧
  sender_and_recipient (set_inroom false st)
  = (Ok (user st, bot_identifier st), set_inroom false st) ∧
  match _rooms st with
  | [] =>
      TextPlugin.inroom st = (Raise IndexError, set_inroom true st) ∧
      sender_and_recipient (set_inroom true st) = (Raise IndexError, set_inroom true st)
  | r0 :: _ =>
      sender_and_recipient (set_inroom true st)
      = (Ok (VOccupant (user st) r0, VRoom r0), set_inroom true st) ∧
      ∀ o, store st !! r0 = Some o →
           TextPlugin.inroom st
           = (Ok ("Joined Room #" +:+ name o +:+ "."), set_inroom true st)
  end.
Proof.
  split_and!; [reflexivity | reflexivity |].
  unfold TextPlugin.inroom, sender_and_recipient, rooms. unfold_M. cbn.
  destruct (_rooms st) as [|r0 rs]; [done|]. split; [done|].
  intros o Ho. unfold TextRoom.__str__, deref. cbn. by rewrite Ho.
Qed.

(** Once a room is registered, [inroom] cannot fail any more, and the room
    it reports never changes: after any sequence of operations it is the
    room that was registered first, under the name it had. *)
Theorem inroom_reports_first_room ops st r0 rs n :
  _rooms st = r0 :: rs → room_name st r0 = Some n →
  TextPlugin.inroom (run ops st)
  = (Ok ("Joined Room #" +:+ n +:+ "."), set_inroom true (run ops st)) ∧
  sender_and_recipient (set_inroom true (run ops st))
  = (Ok (VOccupant (user (run ops st)) r0, VRoom r0), set_inroom true (run ops st)).
Proof.
  intros Hrs Hn. destruct (run_registry ops st) as ([k Hk] & Hnames & _).
  rewrite Hrs in Hk. cbn in Hk. apply Hnames in Hn.
  unfold room_name in Hn. apply fmap_Some in Hn as (o & Ho & ->).
  pose proof (mode_commands (run ops st)) as (_ & _ & Hm). rewrite Hk in Hm.
  destruct Hm as [Hs Hi]. split; [by apply Hi | done].
Qed.

Lemma inroom_reports_first_room_witness :
  let st := (startup session0).1.2 in
  let ops := [op_query_room "#lobby"; op_leave 0; op_asuser "carol"; op_inperson] in
  TextPlugin.inroom (run ops st)
  = (Ok "Joined Room #testroom.", set_inroom true (run ops st)).
Proof.
  apply (inroom_reports_first_room
           [op_query_room "#lobby"; op_leave 0; op_asuser "carol"; op_inperson]
           (startup session0).1.2 0 [] "testroom"); reflexivity.
Defined.

(** ** The occupants of rooms *)

#[local] Instance config_kept_preorder : PreOrder config_kept.
Proof.
  split.
  - intros st. by split_and!.
  - intros st1 st2 st3 (Ha1 & Hb1 & Ho1) (Ha2 & Hb2 & Ho2).
    split_and!; [congruence | congruence | auto].
Qed.

Lemma config_kept_same_store st st' :
  BOT_ADMINS_0 st' = BOT_ADMINS_0 st → bot_identifier st' = bot_identifier st →
  store st' = store st → config_kept st st'.
Proof.
  intros Ha Hb Hs. split_and!; [done | done |].
  intros Hok r o. rewrite Hs. intros Ho. rewrite (Hok r o Ho).
  unfold TextRoom.fresh. cbn. by rewrite Ha, Hb.
Qed.

Lemma config_kept_alloc st o :
  _occupants o = _occupants (TextRoom.fresh st (length (store st)) (name o)) →
  config_kept st (set_store (store st ++ [o]) st).
Proof.
  intros Hocc. split_and!; [done | done |].
  intros Hok r o'. cbn [store set_store]. intros Hr.
  apply lookup_app_Some in Hr as [Hr | [Hlen Hr]].
  - by apply Hok.
  - destruct (r - length (store st)) as [|k] eqn:Hk; [|by destruct k].
    cbn in Hr. injection Hr as <-. assert (r = length (store st)) as -> by lia.
    exact Hocc.
Qed.

Lemma config_kept_update st r o f :
  store st !! r = Some o → name (f o) = name o → _occupants (f o) = _occupants o →
  config_kept st (set_store (<[r := f o]> (store st)) st).
Proof.
  intros Ho Hn Hocc. split_and!; [done | done |].
  intros Hok r' o'. cbn [store set_store]. intros Hr'.
  destruct (decide (r = r')) as [<-|Hne].
  - rewrite list_lookup_insert_eq in Hr' by (by eapply lookup_lt_Some).
    injection Hr' as <-. rewrite Hocc, Hn. by apply Hok.
  - rewrite list_lookup_insert_ne in Hr' by done. by apply Hok.
Qed.

Lemma update_room_config r f :
  (∀ o, name (f o) = name o) → (∀ o, _occupants (f o) = _occupants o) →
  respects config_kept (update_room r f).
Proof.
  intros Hn Hocc st. destruct (store st !! r) as [o|] eqn:Ho.
  - rewrite (update_room_Some _ _ _ o) by done. by apply config_kept_update.
  - rewrite update_room_None by done. reflexivity.
Qed.

Lemma init_config A : respects config_kept (TextRoom.__init__ A).
Proof. intros st. by apply config_kept_alloc. Qed.

Lemma modify_config f :
  (∀ st, BOT_ADMINS_0 (f st) = BOT_ADMINS_0 st ∧ bot_identifier (f st) = bot_identifier st ∧
         store (f st) = store st) →
  respects config_kept (modify f).
Proof.
  intros Hf. apply respects_modify. intros st. destruct (Hf st) as (? & ? & ?).
  by apply config_kept_same_store.
Qed.

Lemma query_room_config room : respects config_kept (query_room room).
Proof.
  unfold query_room. destruct room as [|c rest]; [respects_raise|].
  destruct (Ascii.eqb c "#"); cbn [negb]; [|respects_raise].
  repeat respects_step; try apply init_config. by apply modify_config.
Qed.

Lemma build_identifier_config t : respects config_kept (build_identifier t).
Proof.
  unfold build_identifier.
  repeat respects_step; try apply init_config; apply query_room_config.
Qed.

Lemma startup_config st : config_kept st (startup st).1.2.
Proof.
  destruct (_rooms st) as [|r rs] eqn:Hrs.
  - rewrite startup_empty by done. cbn [fst snd]. unfold with_testroom.
    etrans; [apply (config_kept_same_store st (set_rooms [length (store st)] st)); done|].
    by apply (config_kept_alloc (set_rooms [length (store st)] st)).
  - rewrite startup_nonempty by (by rewrite Hrs). reflexivity.
Qed.

Lemma run_op_config o st : config_kept st (run_op o st).
Proof.
  destruct o; cbn [run_op].
  - apply query_room_config.
  - apply build_identifier_config.
  - apply startup_config.
  - by apply update_room_config.
  - by apply update_room_config.
  - by apply update_room_config.
  - by apply update_room_config.
  - by apply update_room_config.
  - unfold TextPlugin.inroom. repeat respects_step. by apply modify_config.
  - unfold TextPlugin.inperson. repeat respects_step. by apply modify_config.
  - unfold TextPlugin.asuser.
    repeat respects_step; first [by apply modify_config | apply build_identifier_config].
  - unfold TextPlugin.asadmin.
    repeat respects_step; first [by apply modify_config | apply build_identifier_config].
Qed.

Lemma run_config ops st : config_kept st (run ops st).
Proof.
  revert st. induction ops as [|o ops IH]; intros st; [reflexivity|].
  cbn. etrans; [apply (run_op_config o) | apply IH].
Qed.

(** In a session that starts with rooms as [TextRoom.__init__] makes them
    (or with none), every room keeps, through any sequence of operations,
    exactly the three occupants it was created with: a string
    ['somebody'], the person [BOT_ADMINS[0]] and the bot's identity, each
    bound to that very room.  The first of them cannot be printed: its
    person is a string, which has no [person] attribute. *)
Theorem rooms_keep_their_occupants ops st r o :
  occupants_ok st → store (run ops st) !! r = Some o →
  _occupants o
  = [ VOccupant (VStr "somebody") r;
      VOccupant (VPerson (TextPerson.__init__ (BOT_ADMINS_0 st))) r;
      VOccupant (bot_identifier st) r ] ∧
  Forall (λ v, attr_room v = Ok r) (_occupants o) ∧
  py_str (store (run ops st)) (VOccupant (VStr "somebody") r) = Raise AttributeError ∧
  py_str (store (run ops st)) (VOccupant (VPerson (TextPerson.__init__ (BOT_ADMINS_0 st))) r)
  = Ok ("#" +:+ name o +:+ "/" +:+ BOT_ADMINS_0 st).
Proof.
  intros Hok Ho. destruct (run_config ops st) as (Ha & Hb & Hk).
  pose proof (Hk Hok r o Ho) as Hocc. unfold TextRoom.fresh in Hocc. cbn in Hocc.
  rewrite Ha, Hb in Hocc. rewrite Hocc. split_and!.
  - reflexivity.
  - by repeat constructor.
  - cbn. unfold deref. by rewrite Ho.
  - cbn. unfold deref. by rewrite Ho.
Qed.

Lemma rooms_keep_their_occupants_witness :
  let ops := [op_startup; op_join 0; op_set_topic 0 "news"; op_asuser "carol"] in
  occupants_ok session0 ∧
  ∃ o, store (run ops session0) !! 0 = Some o ∧
       _occupants o
       = [ VOccupant (VStr "somebody") 0;
           VOccupant (VPerson (TextPerson.__init__ "@admin")) 0;
           VOccupant (VPerson (TextPerson.__init__ "errbot")) 0 ].
Proof.
  assert (H : occupants_ok session0) by (intros r o; done).
  split; [exact H|]. eexists. split; [reflexivity|].
  exact (proj1 (rooms_keep_their_occupants
                  [op_startup; op_join 0; op_set_topic 0 "news"; op_asuser "carol"]
                  session0 0 _ H eq_refl)).
Defined.

(** ** Rooms: topic and joined flag *)

(** Setting the topic of a room and reading it gives the topic back; the
    joined flag, the name and the occupants of the room, the other rooms
    and the registry are as before; and joining or leaving afterwards
    keeps the topic. *)
Theorem topic_round_trip r o t st :
  store st !! r = Some o →
  ∃ st',
    TextRoom.topic_setter r t st = (Ok tt, st') ∧
    TextRoom.topic r st' = (Ok t, st') ∧
    TextRoom.joined r st' = (Ok (_joined o), st') ∧
    TextRoom.occupants r st' = (Ok (_occupants o), st') ∧
    room_name st' r = Some (name o) ∧
    _rooms st' = _rooms st ∧
    (∀ r', r' ≠ r → store st' !! r' = store st !! r') ∧
    (∀ m, m ∈ [TextRoom.join; TextRoom.leave; TextRoom.create; TextRoom.destroy] →
          ∃ st'', m r st' = (Ok tt, st'') ∧ TextRoom.topic r st'' = (Ok t, st'')).
Proof.
  intros Ho. assert (Hlt : r < length (store st)) by (by eapply lookup_lt_Some).
  eexists. split; [by apply update_room_Some|].
  assert (Hr : store (set_store (<[r:=TextRoom.set_topic t o]> (store st)) st) !! r
               = Some (TextRoom.set_topic t o)).
  { cbn. by apply list_lookup_insert_eq. }
  split_and!.
  - unfold TextRoom.topic. unfold_M. unfold deref. by rewrite Hr.
  - unfold TextRoom.joined. unfold_M. unfold deref. by rewrite Hr.
  - unfold TextRoom.occupants. unfold_M. unfold deref. by rewrite Hr.
  - unfold room_name. by rewrite Hr.
  - reflexivity.
  - intros r' Hne. cbn. by apply list_lookup_insert_ne.
  - intros m Hm.
    assert (∃ b, m = λ self, update_room self (TextRoom.set_joined b)) as [b ->].
    { repeat (apply elem_of_cons in Hm as [->|Hm]; [by eexists|]).
      by apply elem_of_nil in Hm. }
    eexists. split; [by apply update_room_Some|].
    unfold TextRoom.topic. unfold_M. unfold deref. cbn [store set_store].
    rewrite list_lookup_insert_eq by (by rewrite length_insert). reflexivity.
Qed.

Lemma topic_round_trip_witness :
  let st := run [op_query_room "#lobby"] session0 in
  ∃ st', TextRoom.topic_setter 0 "news" st = (Ok tt, st') ∧
         TextRoom.topic 0 st' = (Ok "news", st').
Proof.
  destruct (topic_round_trip 0 (TextRoom.fresh session0 0 "lobby") "news"
              (run [op_query_room "#lobby"] session0) eq_refl) as (st' & H1 & H2 & _).
  exists st'. split; [exact H1 | exact H2].
Defined.

(** ** The loop delivers the lines it reads *)

Lemma messages_app tr tr' : messages (tr ++ tr') = messages tr ++ messages tr'.
Proof. apply omap_app. Qed.

Section Delivery.
Context (ANSI : bool) (fg_red fg_green fg_cyan fx_reset : string).
Context (on_message : Message → M unit) (on_mention : Message → list pyval → M unit).
Context (isalnum : N → bool).

(** The handler of messages returns, and keeps the session one in which
    the next turn can start (the commands of [TextPlugin] do). *)
Hypothesis on_message_ok :
  ∀ msg st, session_wf st → ∃ st', on_message msg st = (Ok tt, st') ∧ session_wf st'.

Local Abbreviation the_loop :=
  (loop ANSI fg_red fg_green fg_cyan fx_reset on_message on_mention isalnum).

(** Lines without a mention are handled one by one, and the loop goes on
    with what follows them. *)
Lemma loop_lines entries st :
  session_wf st → Forall (λ e, findall_mention isalnum e = []) entries →
  ∃ st2 tr,
    session_wf st2 ∧ body <$> messages tr = entries ∧
    ∀ rest, the_loop ((Line <$> entries) ++ rest) st
            = (let '(o, st', tr') := the_loop rest st2 in (o, st', tr ++ tr')).
Proof.
  intros Hwf Hent. revert st Hwf.
  induction Hent as [|entry entries Hno Hent IH]; intros st Hwf.
  - exists st, []. split_and!; [done | done |]. intros rest. cbn.
    by destruct (the_loop rest st) as [[o st'] tr'].
  - destruct (turn_starts ANSI fg_red fg_green fg_cyan fx_reset st Hwf)
      as (ft & p & Hs & Hp).
    destruct (on_message_ok (mkMessage entry ft.1 ft.2) st Hwf) as (st1 & Hm & Hwf1).
    destruct (IH st1 Hwf1) as (st2 & tr & Hwf2 & Hb & Hloop).
    exists st2, ([input p; callback_message (mkMessage entry ft.1 ft.2); sleep] ++ tr).
    split_and!; [done | |].
    + rewrite messages_app, fmap_app, Hb. reflexivity.
    + intros rest. cbn [fmap list_fmap app loop].
      unfold handle_entry. unfold_IO. rewrite Hs. cbn. rewrite Hp. cbn.
      rewrite Hm. cbn. rewrite build_mentioned_findall, Hno. cbn.
      specialize (Hloop rest). cbn in Hloop. rewrite Hloop.
      by destruct (the_loop rest st2) as [[o st'] tr'].
Qed.

End Delivery.

(** When no line contains a mention and the handler of messages returns,
    [serve_forever] hands every line of the input to the handler, once
    and in order, and returns normally at the end of input. *)
Theorem serve_forever_delivers_lines ANSI fg_red fg_green fg_cyan fx_reset
    on_message on_mention isalnum entries st :
  (∀ msg s, session_wf s → ∃ s', on_message msg s = (Ok tt, s') ∧ session_wf s') →
  is_person (user st) → is_person (bot_identifier st) → rooms_allocated st →
  Forall (λ e, findall_mention isalnum e = []) entries →
  ∃ st' tr,
    serve_forever ANSI fg_red fg_green fg_cyan fx_reset on_message on_mention isalnum
      (Line <$> entries) st = (Ok tt, st', tr) ∧
    body <$> messages tr = entries.
Proof.
  intros Hh Hu Hb Hal Hent.
  destruct (serve_forever_parts ANSI fg_red fg_green fg_cyan fx_reset
              on_message on_mention isalnum (Line <$> entries) st)
    as (st1 & o & st' & Hst1 & Hloop & Hsf).
  assert (Hwf1 : session_wf st1).
  { destruct (_rooms st) as [|r rs] eqn:Hrs.
    - rewrite startup_empty in Hst1 by done. injection Hst1 as <-.
      split_and!; [done | done | | done].
      apply Forall_singleton. cbn. rewrite length_app. cbn. lia.
    - rewrite startup_nonempty in Hst1 by (by rewrite Hrs). injection Hst1 as <-.
      split_and!; [done | done | done | by rewrite Hrs]. }
  destruct (loop_lines ANSI fg_red fg_green fg_cyan fx_reset on_message on_mention
              isalnum Hh entries st1 Hwf1 Hent) as (st2 & tr & Hwf2 & Hbody & Hrun).
  specialize (Hrun []). rewrite app_nil_r in Hrun.
  destruct (turn_starts ANSI fg_red fg_green fg_cyan fx_reset st2 Hwf2)
    as (ft & p & Hs & Hp).
  assert (Hend : loop ANSI fg_red fg_green fg_cyan fx_reset on_message on_mention
                   isalnum [] st2
                 = (Raise EOFError, st2, [input p])).
  { cbn [loop]. unfold_IO. rewrite Hs. cbn. rewrite Hp. reflexivity. }
  rewrite Hend in Hrun. unfold try_pass in Hloop. rewrite Hrun in Hloop, Hsf.
  cbn in Hloop. injection Hloop as <- <-.
  eexists _, _. split; [exact Hsf|]. cbn [snd].
  rewrite !messages_app, !fmap_app, Hbody.
  assert (Hs0 : messages (startup_events st) = []).
  { unfold startup_events. by destruct (demo_mode st). }
  rewrite Hs0. cbn. by rewrite !app_nil_r.
Qed.

Lemma serve_forever_delivers_lines_witness :
  ∃ st' tr,
    serve_forever false "" "" "" "" accepting_handler ignore_mention isalnum_latin1
      (Line <$> ["hello"; "it costs 3 @ 2"; "4 @× 5"]) session0 = (Ok tt, st', tr) ∧
    body <$> messages tr = ["hello"; "it costs 3 @ 2"; "4 @× 5"].
Proof.
  apply serve_forever_delivers_lines.
  - intros msg s Hs. by exists s.
  - by eexists.
  - by eexists.
  - apply Forall_nil_2.
  - by repeat constructor.
Defined.



(** The commands [inroom], [inperson] and [asuser] are such handlers. *)
Lemma plugin_commands_keep_session st :
  session_wf st →
  (∃ s, TextPlugin.inroom st = (Ok s, set_inroom true st)) ∧
  session_wf (set_inroom true st) ∧ session_wf (set_inroom false st) ∧
  ∀ args, session_wf (TextPlugin.asuser args st).2.
Proof.
  intros (Hu & Hb & Hal & Hne). split_and!; try done.
  - destruct (_rooms st) as [|r0 rs] eqn:Hrs; [done|].
    pose proof (mode_commands st) as (_ & _ & Hm). rewrite Hrs in Hm.
    destruct Hm as [_ Hi].
    unfold rooms_allocated in Hal. rewrite Hrs in Hal. apply Forall_cons in Hal as [Hlt _].
    destruct (lookup_lt_is_Some_2 _ _ Hlt) as [o Ho]. eexists. by apply Hi.
  - intros args. rewrite asuser_outcome. split_and!; try done. by eexists.
Qed.

(** ** Replies in a group chat *)

(** No identity that [build_identifier] returns has a nickname: a reply
    addressed to a person or an occupant it resolved gets the prefix
    [@None ], and one addressed to a room raises [AttributeError].  The
    same holds for the senders the loop constructs from such a user. *)
Theorem groupchat_prefix_of_resolved t st v st' message :
  build_identifier t st = (Ok v, st') →
  match v with
  | VRoom _ => prefix_groupchat_reply message v = Raise AttributeError
  | _ =>
      prefix_groupchat_reply message v
      = Ok (mkMessage ("@None " +:+ body message) (frm message) (to message)) ∧
      ∀ r, prefix_groupchat_reply message (TextOccupant.__init__ v r)
           = Ok (mkMessage ("@None " +:+ body message) (frm message) (to message))
  end.
Proof.
  unfold build_identifier. unfold_M.
  destruct (startswith "#" t).
  - destruct (contains "/" t).
    + destruct (split "/" (slice1 t)) as [|? [|? [|? ?]]]; try done.
      cbn. by intros [= <- <-].
    + destruct (query_room (slice1 t) st) as [[r|e] st1]; [|done]. by intros [= <- <-].
  - destruct (startswith "@" t); [|done]. cbn. by intros [= <- <-].
Qed.

Lemma groupchat_prefix_of_resolved_witness :
  prefix_groupchat_reply (mkMessage "hello" (VStr "a") (VStr "b"))
                         (VPerson (TextPerson.__init__ "bob"))
  = Ok (mkMessage "@None hello" (VStr "a") (VStr "b")).
Proof.
  apply (groupchat_prefix_of_resolved "@bob" session0 _ session0
           (mkMessage "hello" (VStr "a") (VStr "b")) eq_refl).
Defined.

(** ** [TextBackend.__init__] *)

(** [build_identifier] neither reads nor writes the current user. *)
Lemma build_identifier_ignores_user t u st :
  build_identifier t (set_user u st)
  = ((build_identifier t st).1, set_user u (build_identifier t st).2).
Proof.
  unfold build_identifier.
  destruct (startswith "#" t); [|by destruct (startswith "@" t)].
  destruct (contains "/" t).
  - by destruct (split "/" (slice1 t)) as [|? [|? [|? ?]]].
  - unfold query_room, mbind, M_bind.
    destruct (slice1 t) as [|c A]; [done|].
    destruct (Ascii.eqb c "#"); [|done]. cbn.
    unfold_M. cbn. by destruct (list_contains _ _ _) as [[]|].
Qed.

Lemma registry_ok_set_user u st : registry_ok st → registry_ok (set_user u st).
Proof. done. Qed.

Lemma occupants_ok_set_user u st : occupants_ok st → occupants_ok (set_user u st).
Proof. done. Qed.

(** With a bot name that is not a room token: [__init__] fails when there
    is no administrator ([IndexError]) and when the bot name or the first
    administrator has neither prefix ([ValueError]); with a bot name [@b]
    (or none: [@errbot]) and a first administrator [@a] it makes a backend
    whose user is the person [a], whose bot is the person [b], in
    one-on-one mode, with no room. *)
Theorem init_outcome early config :
  startswith "#" (bot_username config) = false →
  match BOT_ADMINS config with
  | [] => ∃ e, TextBackend.__init__ early config = Raise e ∧
               (startswith "@" (bot_username config) = true → e = IndexError)
  | admin :: _ =>
      (startswith "@" (bot_username config) = false →
       TextBackend.__init__ early config = Raise InvalidIdentifier) ∧
      (startswith "@" (bot_username config) = true →
       (startswith "#" admin = false → startswith "@" admin = false →
        TextBackend.__init__ early config = Raise InvalidIdentifier) ∧
       (startswith "@" admin = true →
        TextBackend.__init__ early config
        = Ok (mkTextBackend admin
                (VPerson (TextPerson.__init__ (slice1 (bot_username config)))) false []
                (VPerson (TextPerson.__init__ (slice1 admin)))
                (demo_flag config) [])))
  end.
Proof.
  intros Hh. unfold TextBackend.__init__, TextBackend.initial_bot_identifier. cbn zeta. rewrite Hh.
  destruct (BOT_ADMINS config) as [|admin admins].
  - destruct (startswith "@" (bot_username config)); cbn; eauto.
    eexists. split; [done | done].
  - split; [by intros ->|]. intros ->. cbn [negb]. split.
    + intros Ha1 Ha2. unfold build_identifier. by rewrite Ha1, Ha2.
    + intros Ha. unfold build_identifier.
      destruct admin as [|c a]; [done|]. cbn in Ha. apply Ascii.eqb_eq in Ha as ->.
      reflexivity.
Qed.

Lemma init_outcome_witness :
  TextBackend.__init__ (λ _, Raise AttributeError) (mk_bot_config ["@admin"; "@root"] None None)
  = Ok session0.
Proof.
  refine (proj2 (proj2 (init_outcome (λ _, Raise AttributeError)
                          (mk_bot_config ["@admin"; "@root"] None None) eq_refl)
                   eq_refl) eq_refl).
Defined.

(** Whatever the first administrator resolves to, a backend that
    [__init__] has made (with a bot name that is not a room token) starts
    in one-on-one mode with a person as the bot; and through any sequence
    of operations its registry never has two entries of one name, its
    rooms keep the three occupants they were created with, and the bot
    stays that person. *)
Theorem init_establishes_invariants early config st ops :
  startswith "#" (bot_username config) = false →
  TextBackend.__init__ early config = Ok st →
  _inroom st = false ∧ is_person (bot_identifier st) ∧
  head (BOT_ADMINS config) = Some (BOT_ADMINS_0 st) ∧
  registry_ok (run ops st) ∧ occupants_ok (run ops st) ∧
  bot_identifier (run ops st) = bot_identifier st ∧
  BOT_ADMINS_0 (run ops st) = BOT_ADMINS_0 st.
Proof.
  intros Hh. unfold TextBackend.__init__, TextBackend.initial_bot_identifier. cbn zeta. rewrite Hh.
  destruct (startswith "@" _); [|done]. cbn [negb].
  destruct (BOT_ADMINS config) as [|admin admins]; [done|].
  set (st0 := mkTextBackend _ _ _ _ _ _ _).
  destruct (build_identifier_store admin st0) as [(Ha & Hb & Hi & _ & _) _].
  destruct (build_identifier_registry admin st0) as (_ & _ & Hreg).
  destruct (build_identifier_config admin st0) as (_ & _ & Hocc).
  destruct (build_identifier admin st0) as [[u|e] st1]; [|done].
  cbn [snd] in *. intros [= <-].
  assert (Hok1 : registry_ok st1).
  { apply Hreg. split; [apply Forall_nil_2 | apply NoDup_nil_2]. }
  assert (Hocc1 : occupants_ok st1) by (apply Hocc; intros r o; done).
  destruct (run_registry ops (set_user u st1)) as (_ & _ & Hreg').
  destruct (run_config ops (set_user u st1)) as (Ha' & Hb' & Hocc').
  split_and!; try done.
  - cbn. rewrite Hb. by eexists.
  - cbn. by rewrite Ha.
  - by apply Hreg'.
  - by apply Hocc'.
Qed.

Lemma init_establishes_invariants_witness :
  let config := mk_bot_config ["##ops"] (Some "@bot") (Some true) in
  ∃ st, TextBackend.__init__ (λ _, Raise AttributeError) config = Ok st ∧
        user st = VRoom 0 ∧ _rooms st = [0] ∧
        registry_ok (run [op_startup; op_query_room "#ops"] st).
Proof.
  eexists. split; [reflexivity|]. split; [reflexivity|]. split; [reflexivity|].
  refine (proj1 (proj2 (proj2 (proj2
    (init_establishes_invariants (λ _, Raise AttributeError)
       (mk_bot_config ["##ops"] (Some "@bot") (Some true)) _
       [op_startup; op_query_room "#ops"] eq_refl eq_refl))))).
Defined.

(** ** The colour of the prompt *)

Lemma prefix_append (s t : string) : String.prefix s (s +:+ t) = true.
Proof.
  induction s as [|c s IH]; [by destruct t|].
  rewrite append_cons. cbn. by destruct (ascii_dec c c).
Qed.

(** [needle in hay] holds when [needle] occurs in [hay]. *)
Lemma substring_of_occurrence pre needle suf :
  substring_of needle (pre +:+ needle +:+ suf) = true.
Proof.
  unfold substring_of. induction pre as [|c pre IH].
  - rewrite append_nil.
    destruct (needle +:+ suf) as [|c hay] eqn:Hh.
    + by destruct needle.
    + cbn [String.index]. rewrite <- Hh. by rewrite prefix_append.
  - rewrite append_cons. cbn [String.index].
    destruct (String.prefix needle _); [done|].
    by destruct (String.index 0 needle (pre +:+ needle +:+ suf)).
Qed.

(** On a terminal or in demo mode the prompt is drawn in the
    administrator's colour whenever the identifier of the current user
    occurs somewhere in [BOT_ADMINS[0]]: for the administrator [@a]
    resolved to the person [a], and equally for a user named by any other
    part of that string, the empty name included. *)
Theorem prompt_colour_of_admin fg_red fg_green fg_cyan fx_reset ANSI
    p pre suf frm to f t st :
  ANSI || demo_mode st = true →
  user st = VPerson p →
  BOT_ADMINS_0 st = pre +:+ TextPerson.person p +:+ suf →
  py_str (store st) frm = Ok f → py_str (store st) to = Ok t →
  prompt ANSI fg_red fg_green fg_cyan fx_reset frm to st
  = (Ok (newline +:+ fg_red +:+ "[" +:+ f +:+ " ➡ " +:+ t +:+ "]"
         +:+ fg_cyan +:+ " >>> " +:+ fx_reset), st).
Proof.
  intros Hmode Hu Ha Hf Ht. unfold prompt. unfold_M. cbn.
  rewrite Hmode, Hu. cbn. rewrite Ha, substring_of_occurrence, Hf, Ht. reflexivity.
Qed.

Lemma prompt_colour_of_admin_witness :
  let st := set_user (VPerson (TextPerson.__init__ "dm")) session0 in
  prompt true "<red>" "<green>" "<cyan>" "<reset>" (user st) (bot_identifier st) st
  = (Ok (newline +:+ "<red>" +:+ "[" +:+ "@dm" +:+ " ➡ " +:+ "@errbot" +:+ "]"
         +:+ "<cyan>" +:+ " >>> " +:+ "<reset>"), st).
Proof.
  apply (prompt_colour_of_admin "<red>" "<green>" "<cyan>" "<reset>" true
           (TextPerson.__init__ "dm") "@a" "in"); reflexivity.
Defined.

(** ** Sending a message: the debug echo *)

(** [send_message] reads only rendering attributes that [__init__] has
    set, as long as the demo flag is the one [__init__] saw: it then
    returns normally.  In demo mode it prints the ANSI rendering of the
    body and nothing else, and does not call the [send_message] of the
    host framework; otherwise it calls that first and then makes nine
    calls of [print] (the four labelled blocks and the closing
    [print('\n\n')]), thirteen on a terminal.  A backend constructed in
    demo mode whose flag is cleared afterwards raises [AttributeError] in
    the middle of the echo; one constructed without demo mode can be
    switched to it. *)
Theorem send_message_after_init xhtml_convert text_convert imtext_convert ansi_convert
    borderless_ansi_convert highlight constructed_in_demo demo_mode ANSI msg :
  let self := init_rendering xhtml_convert text_convert imtext_convert ansi_convert
                borderless_ansi_convert constructed_in_demo in
  let result := send_message highlight self demo_mode ANSI msg in
  (demo_mode = true → result = (Ok tt, [print (ansi_convert (body msg))])) ∧
  (demo_mode = false → constructed_in_demo = false →
   result.1 = Ok tt ∧
   result.2 = super_send_message msg :: (print <$> prints result.2) ∧
   length (prints result.2) = (if ANSI then 13 else 9) ∧
   last (prints result.2) = Some (newline +:+ newline) ∧
   (ANSI = false →
    prints result.2
    = [bar "MD  "; body msg; bar "HTML"; xhtml_convert (body msg);
       bar "TEXT"; text_convert (body msg); bar "IM  "; imtext_convert (body msg);
       newline +:+ newline])) ∧
  (demo_mode = false → constructed_in_demo = true →
   result.1 = Raise AttributeError ∧
   result.2 = [super_send_message msg; print (bar "MD  ")]
              ++ (if ANSI then [] else [print (body msg); print (bar "HTML")])).
Proof.
  split_and!.
  - intros ->. by destruct constructed_in_demo.
  - intros -> ->. destruct ANSI; split_and!; try reflexivity; done.
  - intros -> ->. by destruct ANSI.
Qed.

Lemma send_message_after_init_witness :
  send_message (λ s _ _, s) (init_rendering id id id id id true) true false
    (mkMessage "hello" (VStr "a") (VStr "b"))
  = (Ok tt, [print "hello"]).
Proof.
  apply (send_message_after_init id id id id id (λ s _ _, s) true true false
           (mkMessage "hello" (VStr "a") (VStr "b"))).
  reflexivity.
Defined.

(** ** What the mention pattern finds *)

Lemma append_assoc (a b c : string) : (a +:+ b) +:+ c = a +:+ b +:+ c.
Proof.
  induction a as [|x a IH]; [done|]. rewrite !append_cons. by rewrite IH.
Qed.

Lemma contains_app c a b : contains c (a +:+ b) = contains c a || contains c b.
Proof.
  induction a as [|x a IH]; [done|]. rewrite append_cons. cbn. by rewrite IH, orb_assoc.
Qed.

Lemma join_app a b : join (a ++ b) = join a +:+ join b.
Proof.
  induction a as [|ch a IH]; [done|]. cbn [join app]. by rewrite IH, append_assoc.
Qed.

(** *** Cutting a text into characters and putting it together again *)

Lemma chars_step b rest :
  chars (String b rest)
  = match chars rest with
    | String b' ch :: chs =>
        if is_continuation b' then String b (String b' ch) :: chs
        else String b EmptyString :: String b' ch :: chs
    | chs => String b EmptyString :: chs
    end.
Proof. reflexivity. Qed.

Lemma chars_head b s : ∃ ch chs, chars (String b s) = String b ch :: chs.
Proof.
  cbn [chars]. destruct (chars s) as [|[|b' ch] chs]; eauto.
  destruct (is_continuation b'); eauto.
Qed.

Lemma join_chars s : join (chars s) = s.
Proof.
  induction s as [|b s IH]; [done|]. cbn [chars].
  destruct (chars s) as [|[|b' ch] chs]; cbn [join] in *.
  - by rewrite <- IH.
  - rewrite append_nil in IH. rewrite append_cons, !append_nil. by rewrite IH.
  - destruct (is_continuation b'); cbn [join];
      rewrite !append_cons, ?append_nil; by rewrite <- IH.
Qed.

Lemma chars_cons b t s :
  all_continuation t = true → starts_char s →
  chars (String b t +:+ s) = String b t :: chars s.
Proof.
  intros Ht Hs. revert b. induction t as [|c t IH]; intros b.
  - rewrite append_cons, append_nil. destruct s as [|b' s']; [done|].
    rewrite chars_step.
    destruct (chars_head b' s') as (ch & chs & ->).
    by rewrite (Hs b' s' eq_refl).
  - cbn in Ht. apply andb_true_iff in Ht as [Hc Ht].
    rewrite append_cons, chars_step, (IH Ht c). by rewrite Hc.
Qed.

Lemma join_starts_char chs : Forall is_char chs → starts_char (join chs).
Proof.
  intros [|ch rest (b & t & -> & Hb & _) _]; intros b' rest'; cbn [join]; [done|].
  rewrite append_cons. by intros [= <- _].
Qed.

Lemma chars_join chs : Forall is_char chs → chars (join chs) = chs.
Proof.
  induction 1 as [|ch rest (b & t & -> & Hb & Ht) Hrest IH]; [done|].
  cbn [join]. rewrite chars_cons, IH; [done | done |].
  by apply join_starts_char.
Qed.

Lemma continuation_Some b c : continuation b = Some c → is_continuation b = true.
Proof. unfold is_continuation. by intros ->. Qed.

Lemma lead_not_continuation b :
  (N_of_ascii b <? 128)%N = true ∨ (194 <=? N_of_ascii b)%N = true →
  is_continuation b = false.
Proof.
  unfold is_continuation, continuation. intros H.
  destruct (128 <=? N_of_ascii b)%N eqn:H1, (N_of_ascii b <? 192)%N eqn:H2; try done.
  apply N.leb_le in H1. apply N.ltb_lt in H2.
  destruct H as [H%N.ltb_lt | H%N.leb_le]; lia.
Qed.

(** The bytes of a code point are a character as [chars] cuts it. *)
Lemma code_point_is_char ch cp : code_point ch = Some cp → is_char ch.
Proof.
  unfold code_point. intros H.
  destruct ch as [|b0 [|b1 [|b2 [|b3 [|]]]]]; try done.
  - exists b0, "". split_and!; [done | | done].
    apply lead_not_continuation. left. by destruct (N_of_ascii b0 <? 128)%N.
  - destruct (194 <=? N_of_ascii b0)%N eqn:H0; [|done]. cbn in H.
    destruct (N_of_ascii b0 <? 224)%N; [|done].
    destruct (continuation b1) as [c1|] eqn:H1; [|done].
    exists b0, (String b1 ""). split_and!; [done | apply lead_not_continuation; by right |].
    cbn. by rewrite (continuation_Some _ _ H1).
  - destruct (224 <=? N_of_ascii b0)%N eqn:H0; [|done]. cbn in H.
    destruct (N_of_ascii b0 <? 240)%N; [|done].
    destruct (continuation b1) as [c1|] eqn:H1; [|done].
    destruct (continuation b2) as [c2|] eqn:H2; [|done].
    exists b0, (String b1 (String b2 "")).
    split_and!; [done | apply lead_not_continuation; right |].
    + apply N.leb_le in H0. apply N.leb_le. lia.
    + cbn. by rewrite (continuation_Some _ _ H1), (continuation_Some _ _ H2).
  - destruct (240 <=? N_of_ascii b0)%N eqn:H0; [|done]. cbn in H.
    destruct (N_of_ascii b0 <? 245)%N; [|done].
    destruct (continuation b1) as [c1|] eqn:H1; [|done].
    destruct (continuation b2) as [c2|] eqn:H2; [|done].
    destruct (continuation b3) as [c3|] eqn:H3; [|done].
    exists b0, (String b1 (String b2 (String b3 ""))).
    split_and!; [done | apply lead_not_continuation; right |].
    + apply N.leb_le in H0. apply N.leb_le. lia.
    + cbn. by rewrite (continuation_Some _ _ H1), (continuation_Some _ _ H2),
         (continuation_Some _ _ H3).
Qed.

Lemma all_continuation_contains c t :
  is_continuation c = false → all_continuation t = true → contains c t = false.
Proof.
  intros Hc. induction t as [|b t IH]; [done|]. cbn.
  intros [Hb Ht]%andb_true_iff. rewrite IH by done.
  destruct (Ascii.eqb_spec b c) as [->|]; [congruence | done].
Qed.

Lemma chars_no_at s :
  contains "@" s = false → Forall (λ ch, String.eqb ch "@" = false) (chars s).
Proof.
  induction s as [|b s IH]; [constructor|]. cbn [contains chars].
  intros [Hb Hs]%orb_false_elim. specialize (IH Hs).
  assert (H1 : String.eqb (String b "") "@" = false) by (cbn; by rewrite Hb).
  destruct (chars s) as [|[|b' ch] chs]; [by repeat constructor | by constructor |].
  apply Forall_cons in IH as [Hhd IH].
  destruct (is_continuation b').
  - constructor; [|done]. cbn. by rewrite Hb.
  - by repeat constructor.
Qed.

Section PatternWords.
Context (isalnum : N → bool).

Lemma in_class_is_char ch : in_class isalnum ch = true → is_char ch.
Proof.
  unfold in_class. destruct (code_point ch) as [cp|] eqn:H; [|done].
  intros _. by eapply code_point_is_char.
Qed.

Lemma take_class_split chs : ∃ suf, chs = take_class isalnum chs ++ suf.
Proof.
  induction chs as [|ch chs [suf IH]]; [by exists []|]. cbn.
  destruct (in_class isalnum ch).
  - exists suf. cbn. by rewrite <- IH.
  - by eexists.
Qed.

Lemma findall_chars_occurs pre chs :
  Forall (λ w, substring_of w (pre +:+ join chs) = true) (findall_chars isalnum chs).
Proof.
  revert pre. induction chs as [|ch rest IH]; intros pre; [constructor|].
  assert (Hrest : Forall (λ w, substring_of w (pre +:+ join (ch :: rest)) = true)
                         (findall_chars isalnum rest)).
  { specialize (IH (pre +:+ ch)). by rewrite append_assoc in IH. }
  cbn [findall_chars]. destruct (String.eqb_spec ch "@") as [->|]; [|done].
  destruct (take_class isalnum rest) as [|c' run] eqn:Hrun; [done|].
  constructor; [|done].
  destruct (take_class_split rest) as [suf Hsuf]. rewrite Hrun in Hsuf.
  rewrite Hsuf. cbn [join]. rewrite join_app.
  change ("@" +:+ join (c' :: run) +:+ join suf)
    with (("@" +:+ join (c' :: run)) +:+ join suf).
  apply substring_of_occurrence.
Qed.

Lemma in_class_contains ch :
  in_class isalnum ch = true → contains "@" ch = false ∧ contains "#" ch = false.
Proof.
  intros Hc. destruct (in_class_not_prefix isalnum ch Hc) as (c & t & -> & Hh & Ha).
  destruct (in_class_is_char _ Hc) as (b & t' & [= <- <-] & _ & Ht).
  cbn. rewrite Hh, Ha. split; by apply all_continuation_contains.
Qed.

Lemma findall_mention_no_at entry :
  contains "@" entry = false → findall_mention isalnum entry = [].
Proof.
  intros H%chars_no_at. unfold findall_mention.
  induction H as [|ch chs Hch _ IH]; [done|]. cbn. by rewrite Hch.
Qed.

End PatternWords.

(** With [é] alphanumeric, as it is in every Unicode database, the word
    found in [hi @café!] is [@café]. *)
Lemma findall_mention_accented isalnum :
  isalnum 233%N = true → findall_mention isalnum "hi @café!" = ["@café"].
Proof. intros H. vm_compute. by rewrite H. Qed.

(** Every word the pattern finds occurs in the line, starts with [@] and
    goes on with at least one character; the characters after the [@] are
    all of the class (alphanumeric in Unicode, underscore, apostrophe) and
    none of their bytes is [#] or [@]; so the test [word.startswith('@')]
    of the comprehension never drops a word, and a line without [@] has no
    match. *)
Theorem findall_mention_words isalnum entry :
  Forall (λ w, substring_of w entry = true ∧ startswith "@" w = true ∧
               slice1 w ≠ "" ∧
               Forall (λ ch, in_class isalnum ch = true) (chars (slice1 w)) ∧
               contains "@" (slice1 w) = false ∧ contains "#" (slice1 w) = false)
         (findall_mention isalnum entry) ∧
  (contains "@" entry = false → findall_mention isalnum entry = []).
Proof.
  split; [|apply findall_mention_no_at].
  pose proof (findall_chars_occurs isalnum "" (chars entry)) as Hocc.
  rewrite append_nil, join_chars in Hocc.
  pose proof (findall_chars_runs isalnum (chars entry)) as Hruns.
  rewrite Forall_forall in Hocc, Hruns. apply Forall_forall. intros w Hw.
  destruct (Hruns w Hw) as (run & -> & Hne & Hrun).
  assert (Hchars : chars (join run) = run).
  { apply chars_join. eapply Forall_impl; [exact Hrun|]. apply in_class_is_char. }
  cbn [slice1 startswith]. rewrite Hchars. split_and!; try done.
  - by apply Hocc.
  - destruct run as [|ch run]; [done|]. apply Forall_cons in Hrun as [Hch _].
    destruct (in_class_not_prefix isalnum ch Hch) as (c & t & -> & _). done.
  - clear -Hrun. induction Hrun as [|ch run Hch _ IH]; [done|].
    cbn [join]. rewrite contains_app, IH.
    by destruct (in_class_contains isalnum ch Hch) as [-> _].
  - clear -Hrun. induction Hrun as [|ch run Hch _ IH]; [done|].
    cbn [join]. rewrite contains_app, IH.
    by destruct (in_class_contains isalnum ch Hch) as [_ ->].
Qed.
